(** * zmq_sniffer: a shallow embedding of [scripts/zmq_sniffer.py]

    The script subscribes to the topic prefix [report.options], and for
    every multipart message prints a delimiter naming the topic, a bounded
    summary of the JSON payload (or a parse error and a raw preview) and a
    blank separator.  An interrupt ends the loop.

    Layout of the development:
    - [Text]    : bytes, text, UTF-8, decimal numerals;
    - [PyFloat] : binary64 values, [float(str)] and [repr(float)];
    - [Py]      : the Python values a JSON document decodes to, exceptions,
                  [len], slicing, [dict.get], [str()] and [repr()];
    - [Json]    : [json.loads];
    - [Sniffer] : the script itself, statement by statement;
    - the theorems about the script. *)

From Stdlib Require Import String Ascii List ZArith NArith Bool Lia.
From Stdlib Require Import DecimalString.
Import ListNotations.

Open Scope string_scope.

Set Warnings "-register-all".

(* ------------------------------------------------------------------ *)
(** ** Bytes and text *)

Module Text.

(** A Python [bytes] object is a sequence of octets. *)
Definition bytes := string.

(** A Python [str] is a sequence of code points.  It is held here as its
    UTF-8 encoding (three bytes for a lone surrogate, which [str] can hold),
    which is injective on sequences of code points; lengths and positions of
    [str] count code points, see [cp_len]. *)
Definition str := string.

Definition byte (c : ascii) : N := N_of_ascii c.

Definition chr (n : N) : ascii := ascii_of_N n.

(** The double quote. *)
Definition dquote : ascii := "034".

Definition in_range (lo hi n : N) : bool := ((lo <=? n) && (n <=? hi))%N.

(** A continuation byte [10xxxxxx]. *)
Definition is_cont (c : ascii) : bool := in_range 128 191 (byte c).

(** Second byte of a three-byte sequence: no overlong form, no surrogate. *)
Definition second3 (n0 n1 : N) : bool :=
  if (n0 =? 224)%N then in_range 160 191 n1
  else if (n0 =? 237)%N then in_range 128 159 n1
  else in_range 128 191 n1.

(** Second byte of a four-byte sequence: no overlong form, at most U+10FFFF. *)
Definition second4 (n0 n1 : N) : bool :=
  if (n0 =? 240)%N then in_range 144 191 n1
  else if (n0 =? 244)%N then in_range 128 143 n1
  else in_range 128 191 n1.

(** Whether [b.decode('utf-8')] succeeds (the codec is strict). *)
Fixpoint utf8_valid (b : bytes) : bool :=
  match b with
  | EmptyString => true
  | String c0 t0 =>
      let n0 := byte c0 in
      if (n0 <? 128)%N then utf8_valid t0
      else if in_range 194 223 n0 then
        match t0 with
        | String c1 t1 => is_cont c1 && utf8_valid t1
        | _ => false
        end
      else if in_range 224 239 n0 then
        match t0 with
        | String c1 (String c2 t2) =>
            second3 n0 (byte c1) && is_cont c2 && utf8_valid t2
        | _ => false
        end
      else if in_range 240 244 n0 then
        match t0 with
        | String c1 (String c2 (String c3 t3)) =>
            second4 n0 (byte c1) && is_cont c2 && is_cont c3 && utf8_valid t3
        | _ => false
        end
      else false
  end.

(** [len(s)] of a [str]: the number of code points. *)
Fixpoint cp_len (s : str) : nat :=
  match s with
  | EmptyString => 0
  | String c t => if is_cont c then cp_len t else S (cp_len t)
  end.

(** Splits off the continuation bytes that open [s]. *)
Fixpoint take_cont (s : string) : string * string :=
  match s with
  | String c t =>
      if is_cont c then let (a, r) := take_cont t in (String c a, r)
      else (EmptyString, s)
  | EmptyString => (EmptyString, EmptyString)
  end.

(** The first code point of a [str] and what follows it. *)
Definition cp_uncons (s : str) : option (str * str) :=
  match s with
  | EmptyString => None
  | String c t => let (a, r) := take_cont t in Some (String c a, r)
  end.

(** The code points of [s[:n]], one [str] each. *)
Fixpoint cp_take (n : nat) (s : str) : list str :=
  match n with
  | O => []
  | S n' =>
      match cp_uncons s with
      | None => []
      | Some (c, r) => c :: cp_take n' r
      end
  end.

(** Decimal numerals, as [str(int)] writes them. *)
Definition dec_of_nat (n : nat) : string :=
  NilEmpty.string_of_uint (Nat.to_uint n).

Definition dec_of_Z (z : Z) : string :=
  NilZero.string_of_int (Z.to_int z).

End Text.

(* ------------------------------------------------------------------ *)
(** ** Binary64 numbers: [float(str)] and [repr(float)]

    The script formats whatever number the payload carries, so the decimal
    to binary64 conversion of [float] and the shortest round-tripping
    numeral of [repr] are part of what it prints.  Both are computed here
    exactly, over integers. *)

Module PyFloat.

Open Scope Z_scope.

(** A finite value is [(-1)^neg * m * 2^e], with [2^52 <= m < 2^53] and
    [-1074 <= e <= 971], or [m < 2^52] and [e = -1074] (subnormal), or
    [m = 0] and [e = 0] (a signed zero). *)
Inductive float :=
| Finite (neg : bool) (m e : Z)
| Inf (neg : bool)
| NaN.

Definition float_eqb (a b : float) : bool :=
  match a, b with
  | Finite n1 m1 e1, Finite n2 m2 e2 => Bool.eqb n1 n2 && (m1 =? m2) && (e1 =? e2)
  | Inf n1, Inf n2 => Bool.eqb n1 n2
  | NaN, NaN => true
  | _, _ => false
  end.

(** [p / q] rounded to the nearest integer, ties to even ([0 <= p], [0 < q]). *)
Definition round_half_even (p q : Z) : Z :=
  let d := p / q in
  match 2 * (p mod q) ?= q with
  | Lt => d
  | Gt => d + 1
  | Eq => if Z.even d then d else d + 1
  end.

(** [c * 10^p10 * 2^(-e2)] as a fraction of two positive integers. *)
Definition fraction (c p10 e2 : Z) : Z * Z :=
  let n1 := if 0 <=? p10 then c * 10 ^ p10 else c in
  let d1 := if 0 <=? p10 then 1 else 10 ^ (- p10) in
  if 0 <=? e2 then (n1, d1 * 2 ^ e2) else (n1 * 2 ^ (- e2), d1).

Definition ndigits (c : Z) : Z :=
  Z.of_nat (String.length (Text.dec_of_Z c)).

(** The binary64 nearest to [c * 10^p10] ([0 <= c]), ties to even; beyond
    the largest finite value the result is an infinity. *)
Definition of_decimal (neg : bool) (c p10 : Z) : float :=
  if c =? 0 then Finite neg 0 0
  else if 310 <? p10 + ndigits c then Inf neg
  else if p10 + ndigits c <? -330 then Finite neg 0 0
  else
    let (n0, d0) := fraction c p10 0 in
    let l := Z.log2 n0 - Z.log2 d0 in
    let ea := Z.max (-1074) (l - 53) in
    let (na, da) := fraction c p10 ea in
    let e2 := if 2 ^ 53 * da <=? na then ea + 1 else ea in
    let (n2, d2) := fraction c p10 e2 in
    let q := round_half_even n2 d2 in
    let m := if q =? 2 ^ 53 then 2 ^ 52 else q in
    let e := if q =? 2 ^ 53 then e2 + 1 else e2 in
    if m =? 0 then Finite neg 0 0
    else if 971 <? e then Inf neg
    else Finite neg m e.

(** Compares [m * 2^e] with [c * 10^p]. *)
Definition cmp_dec (m e c p : Z) : comparison :=
  let l := m * 2 ^ (Z.max e 0) * 10 ^ (Z.max (- p) 0) in
  let r := c * 10 ^ (Z.max p 0) * 2 ^ (Z.max (- e) 0) in
  l ?= r.

(** The largest [k] with [10^k <= m * 2^e], searched upwards from [k]. *)
Fixpoint log10_from (fuel : nat) (m e k : Z) : Z :=
  match fuel with
  | O => k
  | S fuel' =>
      match cmp_dec m e 1 (k + 1) with
      | Lt => k
      | _ => log10_from fuel' m e (k + 1)
      end
  end.

Definition log10_floor (m e : Z) : Z :=
  log10_from 4 m e ((Z.log2 m + e) * 30103 / 100000 - 2).

Fixpoint strip_zeros (fuel : nat) (c p : Z) : Z * Z :=
  match fuel with
  | O => (c, p)
  | S fuel' =>
      if (c mod 10 =? 0) && negb (c =? 0) then strip_zeros fuel' (c / 10) (p + 1)
      else (c, p)
  end.

(** The numeral of [n] digits nearest to [m * 2^e] among those that read
    back as the same binary64, if there is one: digits and power of ten. *)
Definition candidate (m e k n : Z) : option (Z * Z) :=
  let p := k - n + 1 in
  let num := m * 2 ^ (Z.max e 0) * 10 ^ (Z.max (- p) 0) in
  let den := 2 ^ (Z.max (- e) 0) * 10 ^ (Z.max p 0) in
  let lo := num / den in
  let hi := lo + 1 in
  let ok c := float_eqb (of_decimal false c p) (Finite false m e) in
  let nearest :=
    match 2 * (num mod den) ?= den with
    | Lt => lo
    | Gt => hi
    | Eq => if Z.even lo then lo else hi
    end in
  match ok lo, ok hi with
  | true, true => Some (nearest, p)
  | true, false => Some (lo, p)
  | false, true => Some (hi, p)
  | false, false => None
  end.

(** The shortest numeral that reads back as [m * 2^e]. *)
Fixpoint shortest (fuel : nat) (m e k n : Z) : Z * Z :=
  match fuel with
  | O => (m, 0)
  | S fuel' =>
      match candidate m e k n with
      | Some (c, p) => strip_zeros 20 c p
      | None => shortest fuel' m e k (n + 1)
      end
  end.

Fixpoint zeros (n : nat) : string :=
  match n with
  | O => ""
  | S n' => String "0" (zeros n')
  end.

Definition pad2 (s : string) : string :=
  if (String.length s <? 2)%nat then String "0" s else s.

(** The digits [ds] with the decimal point after the first [decpt] of them,
    laid out as [repr] does: exponent form when [decpt <= -4] or
    [16 < decpt]. *)
Definition layout (ds : string) (decpt : Z) : string :=
  let n := Z.of_nat (String.length ds) in
  if (decpt <=? -4) || (16 <? decpt) then
    let mant :=
      match ds with
      | String d EmptyString => ds
      | String d rest => String d (String "." rest)
      | EmptyString => ds
      end in
    let x := decpt - 1 in
    let sign := if x <? 0 then "-" else "+" in
    let digits := pad2 (Text.dec_of_Z (Z.abs x)) in
    (mant ++ "e" ++ sign ++ digits)%string
  else if decpt <=? 0 then
    ("0." ++ zeros (Z.to_nat (- decpt)) ++ ds)%string
  else if decpt <? n then
    (substring 0 (Z.to_nat decpt) ds ++ "."
       ++ substring (Z.to_nat decpt) (Z.to_nat (n - decpt)) ds)%string
  else
    (ds ++ zeros (Z.to_nat (decpt - n)) ++ ".0")%string.

(** [repr(x)], which is also [str(x)] and [format(x, '')]. *)
Definition repr (x : float) : string :=
  match x with
  | NaN => "nan"
  | Inf neg => if neg then "-inf" else "inf"
  | Finite neg m e =>
      let sign := if neg then "-" else "" in
      if m =? 0 then (sign ++ "0.0")%string
      else
        let (c, p) := shortest 17 m e (log10_floor m e) 1 in
        let ds := Text.dec_of_Z c in
        (sign ++ layout ds (p + Z.of_nat (String.length ds)))%string
  end.

End PyFloat.

(* ------------------------------------------------------------------ *)
(** ** Python values, exceptions and the built-ins the script calls *)

Module Py.

Import Text.

(** The exceptions that can be raised while the script runs.
    [JSONDecodeError] carries what its constructor is given: the message,
    the document and the position of the fault. *)
Inductive exn :=
| JSONDecodeError (msg : str) (doc : str) (pos : nat)
| UnicodeDecodeError
| ValueError
| RecursionError
| AttributeError
| TypeError
| KeyboardInterrupt
| ZMQError.

Inductive result (A : Type) :=
| Ok (a : A)
| Raise (e : exn).

Arguments Ok {A} a.
Arguments Raise {A} e.

(** What [json.loads] returns: [None], [bool], [int], [float], [str],
    [list], and [dict] with [str] keys in insertion order. *)
Inductive value :=
| PNone
| PBool (b : bool)
| PInt (z : Z)
| PFloat (f : PyFloat.float)
| PStr (s : str)
| PList (l : list value)
| PDict (d : list (str * value)).

(** *** Dictionaries *)

Fixpoint dict_lookup (key : str) (d : list (str * value)) : option value :=
  match d with
  | [] => None
  | (k, v) :: d' => if String.eqb k key then Some v else dict_lookup key d'
  end.

(** [d[key] = v]: an existing key keeps its place, a new one goes last. *)
Fixpoint dict_set (key : str) (v : value) (d : list (str * value))
  : list (str * value) :=
  match d with
  | [] => [(key, v)]
  | (k, w) :: d' =>
      if String.eqb k key then (k, v) :: d' else (k, w) :: dict_set key v d'
  end.

(** [dict(pairs)]. *)
Definition dict_of_pairs (pairs : list (str * value)) : list (str * value) :=
  fold_left (fun d kv => dict_set (fst kv) (snd kv) d) pairs [].

(** [x.get(key, default)]: only a [dict] has the method. *)
Definition get (x : value) (key : str) (default : value) : result value :=
  match x with
  | PDict d =>
      match dict_lookup key d with
      | Some v => Ok v
      | None => Ok default
      end
  | _ => Raise AttributeError
  end.

(** *** Sequences *)

(** [len(x)]. *)
Definition len (x : value) : result nat :=
  match x with
  | PStr s => Ok (cp_len s)
  | PList l => Ok (length l)
  | PDict d => Ok (length d)
  | _ => Raise TypeError
  end.

(** [x[:n]]: lists and strings can be sliced; a [dict] takes the slice for
    a key, which fails (with [TypeError], the slice not being hashable, up
    to Python 3.11), and the other types have no subscript. *)
Definition slice_to (n : nat) (x : value) : result value :=
  match x with
  | PList l => Ok (PList (firstn n l))
  | PStr s => Ok (PStr (String.concat "" (cp_take n s)))
  | _ => Raise TypeError
  end.

(** The items that iterating over [x] yields. *)
Definition iterate (x : value) : result (list value) :=
  match x with
  | PList l => Ok l
  | PStr s => Ok (map PStr (cp_take (cp_len s) s))
  | PDict d => Ok (map (fun kv => PStr (fst kv)) d)
  | _ => Raise TypeError
  end.

(** *** [repr] and [str] *)

Definition hex_digit (n : N) : ascii :=
  if (n <? 10)%N then chr (48 + n) else chr (87 + n).

(** [\xNN] *)
Definition hex_escape (c : ascii) : string :=
  String "\" (String "x" (String (hex_digit (byte c / 16))
                            (String (hex_digit (byte c mod 16)) ""))).

Fixpoint contains (c : ascii) (s : string) : bool :=
  match s with
  | EmptyString => false
  | String a t => Ascii.eqb a c || contains c t
  end.

(** The quote a literal is written in: double quotes when the text has a
    single quote and no double quote. *)
Definition quote_for (s : string) : ascii :=
  if contains "'" s && negb (contains dquote s) then dquote else "'"%char.

(** One character of a literal; [wide] says whether bytes from 128 on stand
    for themselves ([str]) or are escaped ([bytes]). *)
Definition escape_char (wide : bool) (q c : ascii) : string :=
  if Ascii.eqb c "\" then "\\"
  else if Ascii.eqb c q then String "\" (String c "")
  else if Ascii.eqb c "009" then "\t"
  else if Ascii.eqb c "010" then "\n"
  else if Ascii.eqb c "013" then "\r"
  else if (byte c <? 32)%N || (byte c =? 127)%N then hex_escape c
  else if (128 <=? byte c)%N && negb wide then hex_escape c
  else String c "".

Fixpoint escape_all (wide : bool) (q : ascii) (s : string) : string :=
  match s with
  | EmptyString => ""
  | String c t => escape_char wide q c ++ escape_all wide q t
  end.

(** [repr(b)] of a [bytes] object. *)
Definition repr_bytes (b : bytes) : str :=
  let q := quote_for b in
  String "b" (String q (escape_all false q b ++ String q "")).

(** [repr(s)] of a [str].  Code points from U+0080 on are written as they
    are; CPython escapes those its Unicode tables class as not printable. *)
Definition repr_str (s : str) : str :=
  let q := quote_for s in
  String q (escape_all true q s ++ String q "").

Fixpoint repr (v : value) : str :=
  match v with
  | PNone => "None"
  | PBool true => "True"
  | PBool false => "False"
  | PInt z => dec_of_Z z
  | PFloat f => PyFloat.repr f
  | PStr s => repr_str s
  | PList l => "[" ++ String.concat ", " (map repr l) ++ "]"
  | PDict d =>
      "{" ++ String.concat ", "
               (map (fun kv => repr_str (fst kv) ++ ": " ++ repr (snd kv)) d)
          ++ "}"
  end.

(** [str(v)], which is what an f-string field [{v}] writes for every type
    of [value]. *)
Definition to_str (v : value) : str :=
  match v with
  | PStr s => s
  | _ => repr v
  end.

(** [b.decode('utf-8')]. *)
Definition decode_utf8 (b : bytes) : result str :=
  if utf8_valid b then Ok b else Raise UnicodeDecodeError.

(** [b[:n]] of a [bytes] object. *)
Definition bytes_prefix (n : nat) (b : bytes) : bytes := substring 0 n b.

End Py.

(* ------------------------------------------------------------------ *)
(** ** [json.loads]

    The decoder of the standard library with its default settings, as its
    scanner runs it: the grammar, the values built, and for a document that
    is not JSON the message and position of the [JSONDecodeError]. *)

Module Json.

Import Text Py.

(** What scanning at an index gives: a value with the text that follows it
    and the index there, [StopIteration(idx)] where no value starts, or an
    exception. *)
Inductive scan (A : Type) :=
| Val (a : A) (rest : str) (idx : nat)
| Stop (idx : nat)
| Fail (e : exn).

Arguments Val {A} a rest idx.
Arguments Stop {A} idx.
Arguments Fail {A} e.

Definition is_ws (c : ascii) : bool :=
  Ascii.eqb c " " || Ascii.eqb c "009" || Ascii.eqb c "010" || Ascii.eqb c "013".

Fixpoint skip_ws (s : str) (idx : nat) : str * nat :=
  match s with
  | String c t => if is_ws c then skip_ws t (S idx) else (s, idx)
  | EmptyString => (s, idx)
  end.

(** [s] without the prefix [p], when it starts with it. *)
Fixpoint strip_prefix (p s : string) : option string :=
  match p, s with
  | EmptyString, _ => Some s
  | String a p', String b s' => if Ascii.eqb a b then strip_prefix p' s' else None
  | String _ _, EmptyString => None
  end.

(** *** Numbers *)

Definition is_digit (c : ascii) : bool := in_range 48 57 (byte c).

Fixpoint span_digits (s : str) : string * str :=
  match s with
  | String c t =>
      if is_digit c then let (d, r) := span_digits t in (String c d, r)
      else (EmptyString, s)
  | EmptyString => (EmptyString, EmptyString)
  end.

Fixpoint Z_of_digits (acc : Z) (ds : string) : Z :=
  match ds with
  | EmptyString => acc
  | String c t => Z_of_digits (10 * acc + Z.of_N (byte c - 48)) t
  end.

(** The integer part [0|[1-9]\d*]. *)
Definition int_part (s : str) : option (string * str) :=
  match s with
  | String c t =>
      if Ascii.eqb c "0" then Some ("0", t)
      else if in_range 49 57 (byte c) then
        let (d, r) := span_digits t in Some (String c d, r)
      else None
  | EmptyString => None
  end.

(** The fraction [\.\d+], if there is one: its digits. *)
Definition frac_part (s : str) : string * str :=
  match s with
  | String c t =>
      if Ascii.eqb c "." then
        let (d, r) := span_digits t in
        match d with
        | EmptyString => (EmptyString, s)
        | _ => (d, r)
        end
      else (EmptyString, s)
  | EmptyString => (EmptyString, s)
  end.

(** The exponent [[eE][-+]?\d+], if there is one: its sign and digits. *)
Definition exp_part (s : str) : option (bool * string) * str :=
  match s with
  | String c t =>
      if Ascii.eqb c "e" || Ascii.eqb c "E" then
        let '(neg, t1) :=
          match t with
          | String c1 u =>
              if Ascii.eqb c1 "-" then (true, u)
              else if Ascii.eqb c1 "+" then (false, u)
              else (false, t)
          | EmptyString => (false, t)
          end in
        let (d, r) := span_digits t1 in
        match d with
        | EmptyString => (None, s)
        | _ => (Some (neg, d), r)
        end
      else (None, s)
  | EmptyString => (None, s)
  end.

(** [int(text)] refuses numerals of more than this many digits. *)
Definition max_str_digits : nat := 4300.

(** A number at the head of [s]: [int] without fraction and exponent,
    [float] otherwise. *)
Definition match_number (s : str) (idx : nat) : scan value :=
  let '(neg, s1) :=
    match s with
    | String c t => if Ascii.eqb c "-" then (true, t) else (false, s)
    | EmptyString => (false, s)
    end in
  match int_part s1 with
  | None => Stop idx
  | Some (ip, s2) =>
      let (frac, s3) := frac_part s2 in
      let (ex, s4) := exp_part s3 in
      let idx' := idx + (String.length s - String.length s4) in
      match frac, ex with
      | EmptyString, None =>
          if (max_str_digits <? String.length ip)%nat then Fail ValueError
          else
            let n := Z_of_digits 0 ip in
            Val (PInt (if neg then (- n)%Z else n)) s4 idx'
      | _, _ =>
          let e10 :=
            match ex with
            | Some (eneg, ed) =>
                let e := Z_of_digits 0 ed in if eneg then (- e)%Z else e
            | None => 0%Z
            end in
          Val (PFloat (PyFloat.of_decimal neg (Z_of_digits 0 (ip ++ frac))
                         (e10 - Z.of_nat (String.length frac))))
              s4 idx'
      end
  end.

(** *** Strings *)

Definition hex_val (c : ascii) : option N :=
  let n := byte c in
  if in_range 48 57 n then Some (n - 48)%N
  else if in_range 97 102 n then Some (n - 87)%N
  else if in_range 65 70 n then Some (n - 55)%N
  else None.

Definition hex4 (a b c d : ascii) : option N :=
  match hex_val a, hex_val b, hex_val c, hex_val d with
  | Some x, Some y, Some z, Some w => Some (((x * 16 + y) * 16 + z) * 16 + w)%N
  | _, _, _, _ => None
  end.

(** [chr(u)] in UTF-8. *)
Definition encode_cp (u : N) : string :=
  if (u <? 128)%N then String (chr u) ""
  else if (u <? 2048)%N then
    String (chr (192 + u / 64)) (String (chr (128 + u mod 64)) "")
  else if (u <? 65536)%N then
    String (chr (224 + u / 4096))
      (String (chr (128 + (u / 64) mod 64)) (String (chr (128 + u mod 64)) ""))
  else
    String (chr (240 + u / 262144))
      (String (chr (128 + (u / 4096) mod 64))
         (String (chr (128 + (u / 64) mod 64)) (String (chr (128 + u mod 64)) ""))).

(** The character a backslash escape other than [\u] stands for. *)
Definition unescape (c : ascii) : option ascii :=
  if Ascii.eqb c dquote then Some c
  else if Ascii.eqb c "\" then Some c
  else if Ascii.eqb c "/" then Some c
  else if Ascii.eqb c "b" then Some "008"%char
  else if Ascii.eqb c "f" then Some "012"%char
  else if Ascii.eqb c "n" then Some "010"%char
  else if Ascii.eqb c "r" then Some "013"%char
  else if Ascii.eqb c "t" then Some "009"%char
  else None.

Section Decoder.

(** The whole document, which a [JSONDecodeError] keeps. *)
Variable doc : str.

(** [scanstring]: [s] is what follows the opening quote, [idx] its index,
    [start] the index of the quote, [acc] the text decoded so far. *)
Fixpoint scanstring (start : nat) (acc : str) (s : str) (idx : nat)
  : scan str :=
  match s with
  | EmptyString =>
      Fail (JSONDecodeError "Unterminated string starting at" doc start)
  | String c t =>
      if Ascii.eqb c dquote then Val acc t (S idx)
      else if Ascii.eqb c "\" then
        match t with
        | EmptyString =>
            Fail (JSONDecodeError "Unterminated string starting at" doc start)
        | String e t1 =>
            if Ascii.eqb e "u" then
              match t1 with
              | String h1 (String h2 (String h3 (String h4 t2))) =>
                  match hex4 h1 h2 h3 h4 with
                  | None =>
                      Fail (JSONDecodeError "Invalid \uXXXX escape" doc (S idx))
                  | Some u =>
                      match t2 with
                      | String b1 (String b2 t3) =>
                          if in_range 55296 56319 u && Ascii.eqb b1 "\"
                             && Ascii.eqb b2 "u" then
                            match t3 with
                            | String g1 (String g2 (String g3 (String g4 t4))) =>
                                match hex4 g1 g2 g3 g4 with
                                | None =>
                                    Fail (JSONDecodeError "Invalid \uXXXX escape"
                                            doc (idx + 7))
                                | Some u2 =>
                                    if in_range 56320 57343 u2 then
                                      scanstring start
                                        (acc ++ encode_cp
                                           (65536 + (u - 55296) * 1024
                                            + (u2 - 56320)))
                                        t4 (idx + 12)
                                    else
                                      scanstring start (acc ++ encode_cp u)
                                        t2 (idx + 6)
                                end
                            | _ =>
                                Fail (JSONDecodeError "Invalid \uXXXX escape"
                                        doc (idx + 7))
                            end
                          else scanstring start (acc ++ encode_cp u) t2 (idx + 6)
                      | _ => scanstring start (acc ++ encode_cp u) t2 (idx + 6)
                      end
                  end
              | _ => Fail (JSONDecodeError "Invalid \uXXXX escape" doc (S idx))
              end
            else
              match unescape e with
              | Some x => scanstring start (acc ++ String x "") t1 (idx + 2)
              | None => Fail (JSONDecodeError "Invalid \escape" doc idx)
              end
        end
      else if (byte c <=? 31)%N then
        Fail (JSONDecodeError "Invalid control character at" doc idx)
      else
        scanstring start (acc ++ String c "") t (if is_cont c then idx else S idx)
  end.

Definition map_scan {A B : Type} (f : A -> B) (r : scan A) : scan B :=
  match r with
  | Val a rest idx => Val (f a) rest idx
  | Stop idx => Stop idx
  | Fail e => Fail e
  end.

(** The members of an object after its first key's position is reached:
    [s] starts at a key.  [scan_value] reads one value, [n] bounds the
    number of members by the length of the text, [pairs] are the members
    read so far, last first. *)
Fixpoint members (scan_value : str -> nat -> scan value) (n : nat)
  (pairs : list (str * value)) (s : str) (idx : nat) : scan value :=
  match n with
  | O => Fail RecursionError
  | S n' =>
      match strip_prefix (String dquote "") s with
      | None =>
          Fail (JSONDecodeError
                  "Expecting property name enclosed in double quotes" doc idx)
      | Some t1 =>
          match scanstring idx "" t1 (S idx) with
          | Val key s2 i2 =>
              let (s3, i3) := skip_ws s2 i2 in
              match strip_prefix ":" s3 with
              | None => Fail (JSONDecodeError "Expecting ':' delimiter" doc i3)
              | Some t3 =>
                  let (s4, i4) := skip_ws t3 (S i3) in
                  match scan_value s4 i4 with
                  | Val v s5 i5 =>
                      let (s6, i6) := skip_ws s5 i5 in
                      match strip_prefix "}" s6, strip_prefix "," s6 with
                      | Some t6, _ =>
                          Val (PDict (dict_of_pairs (rev ((key, v) :: pairs))))
                              t6 (S i6)
                      | None, Some t6 =>
                          let (s7, i7) := skip_ws t6 (S i6) in
                          members scan_value n' ((key, v) :: pairs) s7 i7
                      | None, None =>
                          Fail (JSONDecodeError "Expecting ',' delimiter" doc i6)
                      end
                  | Stop i => Stop i
                  | Fail e => Fail e
                  end
              end
          | Stop i => Stop i
          | Fail e => Fail e
          end
      end
  end.

(** What follows [{]. *)
Definition parse_object (scan_value : str -> nat -> scan value)
  (s : str) (idx : nat) : scan value :=
  let (s1, i1) := skip_ws s idx in
  match strip_prefix "}" s1 with
  | Some t => Val (PDict []) t (S i1)
  | None => members scan_value (S (String.length s1)) [] s1 i1
  end.

(** The elements of an array: [s] starts at an element. *)
Fixpoint elements (scan_value : str -> nat -> scan value) (n : nat)
  (items : list value) (s : str) (idx : nat) : scan value :=
  match n with
  | O => Fail RecursionError
  | S n' =>
      match scan_value s idx with
      | Val v s1 i1 =>
          let (s2, i2) := skip_ws s1 i1 in
          match strip_prefix "]" s2, strip_prefix "," s2 with
          | Some t2, _ => Val (PList (rev (v :: items))) t2 (S i2)
          | None, Some t2 =>
              let (s3, i3) := skip_ws t2 (S i2) in
              elements scan_value n' (v :: items) s3 i3
          | None, None =>
              Fail (JSONDecodeError "Expecting ',' delimiter" doc i2)
          end
      | Stop i => Stop i
      | Fail e => Fail e
      end
  end.

(** What follows [[]. *)
Definition parse_array (scan_value : str -> nat -> scan value)
  (s : str) (idx : nat) : scan value :=
  let (s1, i1) := skip_ws s idx in
  match strip_prefix "]" s1 with
  | Some t => Val (PList []) t (S i1)
  | None => elements scan_value (S (String.length s1)) [] s1 i1
  end.

(** A literal [word] standing for [v] at the head of [s], or else [other]. *)
Definition keyword (word : string) (v : value) (s : str) (idx : nat)
  (other : scan value) : scan value :=
  match strip_prefix word s with
  | Some t => Val v t (idx + String.length word)
  | None => other
  end.

(** [scan_once]: one JSON value at the head of [s].  [depth] bounds the
    nesting of containers. *)
Fixpoint scan_once (depth : nat) (s : str) (idx : nat) : scan value :=
  match depth with
  | O => Fail RecursionError
  | S depth' =>
      match s with
      | EmptyString => Stop idx
      | String c t =>
          if Ascii.eqb c dquote then map_scan PStr (scanstring idx "" t (S idx))
          else if Ascii.eqb c "{" then parse_object (scan_once depth') t (S idx)
          else if Ascii.eqb c "[" then parse_array (scan_once depth') t (S idx)
          else
            keyword "null" PNone s idx
              (keyword "true" (PBool true) s idx
                 (keyword "false" (PBool false) s idx
                    (keyword "NaN" (PFloat PyFloat.NaN) s idx
                       (keyword "Infinity" (PFloat (PyFloat.Inf false)) s idx
                          (keyword "-Infinity" (PFloat (PyFloat.Inf true)) s idx
                             (match_number s idx))))))
      end
  end.

End Decoder.

(** U+FEFF in UTF-8. *)
Definition bom : string :=
  String (chr 239) (String (chr 187) (String (chr 191) "")).

(** [json.loads(s)] for a [str].  Containers nest no deeper than the
    document is long, so the bound given to [scan_once] is never reached;
    the limit CPython puts on nesting by its recursion depth is left out. *)
Definition loads (s : str) : result value :=
  match strip_prefix bom s with
  | Some _ =>
      Raise (JSONDecodeError "Unexpected UTF-8 BOM (decode using utf-8-sig)" s 0)
  | None =>
      let (s1, i1) := skip_ws s 0 in
      match scan_once s (S (String.length s)) s1 i1 with
      | Val v r i =>
          let (r', i') := skip_ws r i in
          match r' with
          | EmptyString => Ok v
          | _ => Raise (JSONDecodeError "Extra data" s i')
          end
      | Stop i => Raise (JSONDecodeError "Expecting value" s i)
      | Fail e => Raise e
      end
  end.

(** The exceptions decoding [doc] can end with: a [JSONDecodeError] about
    [doc], or the [ValueError] of an integer numeral that is too long. *)
Definition decode_fault (doc : str) (e : exn) : Prop :=
  e = ValueError \/ exists msg pos, e = JSONDecodeError msg doc pos.

(** A scan that makes progress: a value leaves less than [bound] bytes of
    text, and a failure is a [decode_fault]. *)
Definition scan_good {A : Type} (doc : str) (bound : nat) (r : scan A) : Prop :=
  match r with
  | Val _ rest _ => String.length rest < bound
  | Stop _ => True
  | Fail e => decode_fault doc e
  end.

(** Line and column (from 1) of the code point at index [pos] of [s]. *)
Fixpoint line_col (s : str) (pos line col : nat) : nat * nat :=
  match pos, s with
  | O, _ => (line, col)
  | _, EmptyString => (line, col)
  | S pos', String c t =>
      if Ascii.eqb c "010" then line_col t pos' (S line) 1
      else if is_cont c then line_col t pos line col
      else line_col t pos' line (S col)
  end.

End Json.

Module PyErr.

Import Text Py.

(** [str(e)] of a [JSONDecodeError]: the message with line, column and
    index; the only exception the script formats. *)
Definition to_str (e : exn) : str :=
  match e with
  | JSONDecodeError msg doc pos =>
      let (line, col) := Json.line_col doc pos 1 1 in
      msg ++ ": line " ++ dec_of_nat line ++ " column " ++ dec_of_nat col
          ++ " (char " ++ dec_of_nat pos ++ ")"
  | _ => ""
  end.

End PyErr.

(* ------------------------------------------------------------------ *)
(** ** The script *)

Module Sniffer.

Import Text Py.

(** Standard output: the texts handed to [print], in order.  The stream
    writes each of them followed by a newline; how it encodes them belongs
    to the environment. *)
Definition stdout := list str.

(** A piece of the script: what it prints, and its result or the exception
    that ended it. *)
Definition io (A : Type) : Type := stdout * result A.

Definition ret {A : Type} (a : A) : io A := ([], Ok a).

Definition lift {A : Type} (r : result A) : io A := ([], r).

Definition bind {A B : Type} (m : io A) (k : A -> io B) : io B :=
  match m with
  | (out, Ok a) => let (out', r) := k a in ((out ++ out')%list, r)
  | (out, Raise e) => (out, Raise e)
  end.

Notation "x <- m ;; k" := (bind m (fun x => k))
  (at level 61, m at next level, right associativity).
Notation "m ;; k" := (bind m (fun _ => k))
  (at level 61, right associativity).

Definition print (s : str) : io unit := ([s], Ok tt).

(** [try: body  except <class> as e: handler e]. *)
Definition try_except {A : Type} (body : io A) (catches : exn -> bool)
  (handler : exn -> io A) : io A :=
  match body with
  | (out, Raise e) =>
      if catches e then let (out', r) := handler e in ((out ++ out')%list, r)
      else (out, Raise e)
  | done => done
  end.

Definition is_JSONDecodeError (e : exn) : bool :=
  match e with
  | JSONDecodeError _ _ _ => true
  | _ => false
  end.

Definition is_KeyboardInterrupt (e : exn) : bool :=
  match e with
  | KeyboardInterrupt => true
  | _ => false
  end.

(** [for x in items: body x]. *)
Fixpoint for_each {A : Type} (items : list A) (body : A -> io unit) : io unit :=
  match items with
  | [] => ret tt
  | x :: rest => body x ;; for_each rest body
  end.

(** *** One message

    The body of the [for] over the first rows (lines 43 to 50). *)
Definition show_row (row : value) : io unit :=
  strike <- lift (get row "strike" (PStr "?")) ;;
  call <- lift (get row "call" (PDict [])) ;;
  put <- lift (get row "put" (PDict [])) ;;
  call_delta <- lift (get call "delta" (PStr "-")) ;;
  put_delta <- lift (get put "delta" (PStr "-")) ;;
  print ("  Strike " ++ to_str strike ++ ": Call delta=" ++ to_str call_delta
           ++ ", Put delta=" ++ to_str put_delta).

(** The body of the inner [try] (lines 34 to 53). *)
Definition show_payload (payload : bytes) : io unit :=
  text <- lift (decode_utf8 payload) ;;
  data <- lift (Json.loads text) ;;
  underlying <- lift (get data "underlying" (PStr "?")) ;;
  expiry <- lift (get data "expiry" (PStr "?")) ;;
  rows <- lift (get data "rows" (PList [])) ;;
  n <- lift (len rows) ;;
  print ("Underlying: " ++ to_str underlying ++ ", Expiry: " ++ to_str expiry
           ++ ", Rows: " ++ dec_of_nat n) ;;
  first_rows <- lift (slice_to 3 rows) ;;
  items <- lift (iterate first_rows) ;;
  for_each items show_row ;;
  n' <- lift (len rows) ;;
  if (3 <? n')%nat
  then print ("  ... and " ++ dec_of_nat (n' - 3) ++ " more rows")
  else ret tt.

(** The handler of [json.JSONDecodeError] (lines 56 and 57). *)
Definition report_error (payload : bytes) (e : exn) : io unit :=
  print ("  JSON parse error: " ++ PyErr.to_str e) ;;
  print ("  Raw: " ++ repr_bytes (bytes_prefix 200 payload) ++ "...").

(** [msg[0].decode('utf-8') if msg else ""]. *)
Definition topic_of (msg : list bytes) : result str :=
  match msg with
  | [] => Ok ""
  | frame0 :: _ => decode_utf8 frame0
  end.

(** What the loop does with a received message (lines 28 to 59). *)
Definition handle_message (msg : list bytes) : io unit :=
  topic <- lift (topic_of msg) ;;
  print ("=== TOPIC: " ++ topic ++ " ===") ;;
  (if (1 <? length msg)%nat
   then
     let payload := nth 1 msg "" in
     try_except (show_payload payload) is_JSONDecodeError (report_error payload)
   else ret tt) ;;
  print "".

(** *** The loop *)

(** What a pass of the loop meets: [recv_multipart] returns a message; or it
    raises (an interrupt while it blocks is [Raised KeyboardInterrupt]); or
    it returns a message and the interrupt arrives while the message is
    handled, once [k] of its records are printed (all of them, if it prints
    fewer). *)
Inductive event :=
| Message (msg : list bytes)
| Raised (e : exn)
| Interrupted (msg : list bytes) (k : nat).

(** How the process stands: still in the loop, blocked in
    [recv_multipart], or exited with a status. *)
Inductive status :=
| Receiving
| Exited (code : nat).

(** The body of the outer [try] (lines 27 to 59). *)
Definition pass (ev : event) : io unit :=
  match ev with
  | Message msg => handle_message msg
  | Raised e => lift (Raise e)
  | Interrupted msg k => (firstn k (fst (handle_message msg)), Raise KeyboardInterrupt)
  end.

Inductive flow := Continue | Break.

Definition stopped : str := String "010" "Stopped.".

(** One pass with its [except KeyboardInterrupt] (lines 26 to 63). *)
Definition guarded_pass (ev : event) : io flow :=
  try_except (pass ev ;; ret Continue) is_KeyboardInterrupt
    (fun _ => print stopped ;; ret Break).

(** [while True] over the events that arrive.  After the [break] the script
    ends with status 0; an exception nothing catches ends it with status 1. *)
Fixpoint loop (events : list event) : stdout * status :=
  match events with
  | [] => ([], Receiving)
  | ev :: rest =>
      match guarded_pass ev with
      | (out, Ok Continue) => let (out', st) := loop rest in ((out ++ out')%list, st)
      | (out, Ok Break) => (out, Exited 0)
      | (out, Raise _) => (out, Exited 1)
      end
  end.

(** *** Start-up *)

Definition default_address : str := "tcp://localhost:5556".

(** [sys.argv[1] if len(sys.argv) > 1 else "tcp://localhost:5556"]. *)
Definition address_of (argv : list str) : str :=
  if (1 <? length argv)%nat then nth 1 argv "" else default_address.

Definition topic_filter : str := "report.options".

(** What the script is run with: its arguments, the messaging library's
    answer to [connect] for an endpoint, and the events at the socket. *)
Record world := {
  argv : list str;
  connect : str -> result unit;
  events : list event
}.

(** [main()] (lines 13 to 63). *)
Definition main (w : world) : stdout * status :=
  let address := address_of (argv w) in
  match
    (lift (connect w address) ;;
     print ("Connected to " ++ address) ;;
     print ("Listening for " ++ topic_filter ++ " messages..." ++ String "010" ""))
  with
  | (out, Ok _) => let (out', st) := loop (events w) in ((out ++ out')%list, st)
  | (out, Raise _) => (out, Exited 1)
  end.

End Sniffer.

(* ------------------------------------------------------------------ *)
(** ** The vocabulary of the statements *)

Module Spec.

Import Text Py Sniffer.

(** The delimiter that names a topic. *)
Definition delimiter (topic : str) : str := "=== TOPIC: " ++ topic ++ " ===".

(** What fills a slot of the output: the text of the field when the record
    has it, the placeholder when it does not. *)
Definition slot (placeholder : str) (field : option value) : str :=
  match field with
  | Some v => to_str v
  | None => placeholder
  end.

(** The [delta] of one side of a row, absent when the side is. *)
Definition delta_of (side : option value) : option value :=
  match side with
  | Some (PDict greeks) => dict_lookup "delta" greeks
  | _ => None
  end.

(** A side of a row is an object, where the row has it. *)
Definition side_ok (side : option value) : bool :=
  match side with
  | None | Some (PDict _) => true
  | Some _ => false
  end.

(** A row as the payload schema has it: an object whose [call] and [put],
    where present, are objects. *)
Definition row_ok (row : value) : bool :=
  match row with
  | PDict r => side_ok (dict_lookup "call" r) && side_ok (dict_lookup "put" r)
  | _ => false
  end.


(** The line of a row. *)
Definition row_line (row : value) : str :=
  match row with
  | PDict r =>
      "  Strike " ++ slot "?" (dict_lookup "strike" r)
        ++ ": Call delta=" ++ slot "-" (delta_of (dict_lookup "call" r))
        ++ ", Put delta=" ++ slot "-" (delta_of (dict_lookup "put" r))
  | _ => ""
  end.



(** What the script prints once it is connected to [address]. *)
Definition banner (address : str) : stdout :=
  ["Connected to " ++ address;
   "Listening for report.options messages..." ++ String "010" ""].

(** A line as it reads on the console, the blanks that indent it aside. *)
Fixpoint lstrip (s : str) : str :=
  match s with
  | String c t => if Ascii.eqb c " " then lstrip t else s
  | EmptyString => s
  end.

(** The output shows [text] on a line of its own. *)
Definition shows (text : str) (out : stdout) : Prop :=
  In text (map lstrip out).

(** The output shows [first] and, on the next line, [second]. *)
Fixpoint shows_next (first second : str) (out : stdout) : Prop :=
  match out with
  | a :: (b :: _) as rest =>
      (lstrip a = first /\ lstrip b = second) \/ shows_next first second rest
  | _ => False
  end.

(** [prefix p s]: the text [s] starts with [p]. *)
Definition starts_with (p s : str) : Prop := exists t, s = p ++ t.

End Spec.

(* ------------------------------------------------------------------ *)
(** ** Sample inputs *)

Module Samples.

Import Text Py Sniffer.

Definition topic : bytes := "report.options".

(** [s] with a double quote in the place of each apostrophe: the JSON
    texts below are written with apostrophes. *)
Fixpoint quoted (s : string) : string :=
  match s with
  | EmptyString => EmptyString
  | String c t => String (if Ascii.eqb c "'" then dquote else c) (quoted t)
  end.

(** The payload of the first scenario. *)
Definition spx : bytes :=
  quoted
    "{'underlying':'SPX','expiry':'2024-01-19','rows':[{'strike':4500,'call':{'delta':0.5},'put':{'delta':-0.5}}]}".


(** The payload of the second scenario. *)
Definition not_json : bytes := "not json".

(** A payload that is not UTF-8: the single byte [0xff]. *)
Definition not_utf8 : bytes := String (chr 255) "".



(** A run of the script without arguments, connected, that meets [evs]. *)
Definition session (evs : list event) : world :=
  {| argv := ["zmq_sniffer.py"]; connect := fun _ => Ok tt; events := evs |}.

(** What handling the first scenario's message prints. *)
Definition spx_output : stdout :=
  ["=== TOPIC: report.options ===";
   "Underlying: SPX, Expiry: 2024-01-19, Rows: 1";
   "  Strike 4500: Call delta=0.5, Put delta=-0.5";
   ""].

End Samples.

(* ------------------------------------------------------------------ *)
(** ** The vocabulary of outcomes *)

Module Outcome.

Import Text Py Sniffer.

(** The exceptions that handling a message can end with. *)
Definition pass_fault (e : exn) : bool :=
  match e with
  | UnicodeDecodeError | ValueError | AttributeError | TypeError => true
  | _ => false
  end.

(** The exceptions the body of the inner [try] can end with. *)
Definition payload_fault (e : exn) : bool :=
  match e with
  | JSONDecodeError _ _ _ => true
  | _ => pass_fault e
  end.

(** [m] raises nothing but what [allowed] admits. *)
Definition raises_only {A : Type} (allowed : exn -> bool) (m : io A) : Prop :=
  match snd m with
  | Ok _ => True
  | Raise e => allowed e = true
  end.

(** An event that carries an interrupt. *)
Definition is_interrupt (ev : event) : bool :=
  match ev with
  | Raised KeyboardInterrupt => true
  | Interrupted _ _ => true
  | _ => false
  end.

Definition is_dict (v : value) : bool :=
  match v with
  | PDict _ => true
  | _ => false
  end.


(** A printable ASCII character, the blank included. *)
Definition printable (c : ascii) : bool := in_range 32 126 (byte c).

Fixpoint all_chars (p : ascii -> bool) (s : string) : bool :=
  match s with
  | EmptyString => true
  | String c t => p c && all_chars p t
  end.

(** The line of the raw preview of a payload. *)
Definition raw_line (payload : bytes) : str :=
  "  Raw: " ++ repr_bytes (bytes_prefix 200 payload) ++ "...".

(** What the messages [msgs] print, one after the other. *)
Definition outputs (msgs : list (list bytes)) : stdout :=
  concat (map (fun msg => fst (handle_message msg)) msgs).

(** A byte below 128. *)
Definition is_ascii (c : ascii) : bool := (byte c <? 128)%N.

(** Payloads that are JSON but not records of the schema: an array, a
    record whose [rows] is a number, one whose [rows] is an object, and one
    whose second row is a number. *)
Definition array_payload : bytes := "[1]".

Definition rows_number : bytes := Samples.quoted "{'rows':5}".



End Outcome.

(* ------------------------------------------------------------------ *)
(** ** Properties *)

Import Text Py Sniffer Spec Outcome.

(** *** The decoder always answers *)

Import Json.

Ltac fault := cbn; right; eexists; eexists; reflexivity.

Lemma scanstring_good (doc : str) (n : nat) :
  forall s, String.length s <= n ->
  forall start acc idx,
    scan_good doc (S (String.length s)) (scanstring doc start acc s idx).
Proof.
  induction n as [|n IH]; intros s Hn start acc idx.
  - destruct s; [fault | cbn in Hn; lia].
  - destruct s as [|c t]; [fault|].
    cbn [scanstring].
    repeat first
      [ match goal with
        | |- scan_good _ _ (scanstring _ _ _ ?u _) =>
            let G := fresh "G" in
            assert (G := IH u ltac:(cbn [String.length] in *; lia) start);
            match goal with
            | |- scan_good _ _ (scanstring _ _ ?a _ ?i) => specialize (G a i)
            end;
            revert G; unfold scan_good;
            destruct (scanstring _ _ _ u _); cbn [String.length] in *;
            intros; try assumption; lia
        | |- scan_good _ _ (Fail _) => fault
        | |- scan_good _ _ (Val _ _ _) => cbn [scan_good String.length] in *; lia
        | |- context [if ?b then _ else _] => destruct b
        | |- context [match ?x with _ => _ end] => destruct x
        end ].
Qed.

Lemma skip_ws_length (s : str) (idx : nat) :
  String.length (fst (skip_ws s idx)) <= String.length s.
Proof.
  revert idx. induction s as [|c t IH]; intros idx; cbn; [lia|].
  destruct (is_ws c); cbn; [specialize (IH (S idx)); lia | lia].
Qed.

Lemma strip_prefix_length (p s t : string) :
  strip_prefix p s = Some t ->
  String.length s = String.length p + String.length t.
Proof.
  revert s. induction p as [|a p IH]; intros s H; cbn in *.
  - injection H as ->. reflexivity.
  - destruct s as [|b s]; [discriminate|].
    destruct (Ascii.eqb a b); [|discriminate].
    cbn. rewrite (IH _ H). reflexivity.
Qed.

Lemma span_digits_length (s : str) :
  String.length (snd (span_digits s)) <= String.length s.
Proof.
  induction s as [|c t IH]; cbn; [lia|].
  destruct (is_digit c); [|cbn; lia].
  destruct (span_digits t). cbn in *. lia.
Qed.

Lemma int_part_length (s : str) (ip : string) (r : str) :
  int_part s = Some (ip, r) -> String.length r < String.length s.
Proof.
  unfold int_part. destruct s as [|c t]; [discriminate|].
  destruct (Ascii.eqb c "0").
  - intros H. injection H as _ <-. cbn. lia.
  - destruct (in_range 49 57 (byte c)); [|discriminate].
    pose proof (span_digits_length t) as L.
    destruct (span_digits t). intros H. injection H as _ <-. cbn in *. lia.
Qed.

Lemma frac_part_length (s : str) :
  String.length (snd (frac_part s)) <= String.length s.
Proof.
  unfold frac_part. destruct s as [|c t]; [cbn; lia|].
  destruct (Ascii.eqb c "."); [|cbn; lia].
  pose proof (span_digits_length t) as L.
  destruct (span_digits t) as [[|d ds] r]; cbn in *; lia.
Qed.

Lemma exp_part_length (s : str) :
  String.length (snd (exp_part s)) <= String.length s.
Proof.
  unfold exp_part. destruct s as [|c t]; [cbn; lia|].
  destruct (Ascii.eqb c "e" || Ascii.eqb c "E"); [|cbn; lia].
  destruct t as [|c1 u].
  - cbn. lia.
  - destruct (Ascii.eqb c1 "-"); [|destruct (Ascii.eqb c1 "+")];
      match goal with
      | |- context [span_digits ?x] =>
          pose proof (span_digits_length x) as L;
          destruct (span_digits x) as [[|d ds] r]
      end; cbn in *; lia.
Qed.

Lemma match_number_good (s : str) (idx : nat) :
  match match_number s idx with
  | Val _ r _ => String.length r < String.length s
  | Stop _ => True
  | Fail e => e = ValueError
  end.
Proof.
  unfold match_number.
  set (head := match s with
               | String c t => if Ascii.eqb c "-" then (true, t) else (false, s)
               | EmptyString => (false, s)
               end).
  assert (Hh : String.length (snd head) <= String.length s).
  { subst head. destruct s as [|c t]; [cbn; lia|].
    destruct (Ascii.eqb c "-"); cbn; lia. }
  destruct head as [neg s1]. cbn [snd] in Hh.
  destruct (int_part s1) as [[ip s2]|] eqn:Ei; [|exact I].
  apply int_part_length in Ei.
  pose proof (frac_part_length s2) as Lf.
  destruct (frac_part s2) as [frac s3]. cbn [snd] in Lf.
  pose proof (exp_part_length s3) as Le.
  destruct (exp_part s3) as [ex s4]. cbn [snd] in Le.
  destruct frac; destruct ex; try lia.
  destruct (max_str_digits <? String.length ip)%nat; [reflexivity|lia].
Qed.

Section Progress.

Variable doc : str.
Variable scan_value : str -> nat -> scan value.
Variable depth : nat.
Hypothesis scan_value_good :
  forall s i, String.length s < depth ->
    scan_good doc (String.length s) (scan_value s i).

Lemma members_good (n : nat) :
  forall pairs s idx,
    String.length s < n -> String.length s < depth ->
    scan_good doc (String.length s) (members doc scan_value n pairs s idx).
Proof.
  induction n as [|n IH]; intros pairs s idx Hn Hd; [lia|].
  cbn [members].
  destruct (strip_prefix (String dquote "") s) as [t1|] eqn:E1; [|fault].
  apply strip_prefix_length in E1. cbn [String.length] in E1.
  pose proof (scanstring_good doc _ t1 (le_n _) idx "" (S idx)) as G1.
  destruct (scanstring doc idx "" t1 (S idx)) as [key s2 i2|i|e];
    cbn [scan_good] in G1 |- *; [|exact I|exact G1].
  pose proof (skip_ws_length s2 i2) as L3.
  destruct (skip_ws s2 i2) as [s3 i3]. cbn [fst] in L3.
  destruct (strip_prefix ":" s3) as [t3|] eqn:E3; [|fault].
  apply strip_prefix_length in E3. cbn [String.length] in E3.
  pose proof (skip_ws_length t3 (S i3)) as L4.
  destruct (skip_ws t3 (S i3)) as [s4 i4]. cbn [fst] in L4.
  pose proof (scan_value_good s4 i4 ltac:(lia)) as G5.
  destruct (scan_value s4 i4) as [v s5 i5|i|e];
    cbn [scan_good] in G5 |- *; [|exact I|exact G5].
  pose proof (skip_ws_length s5 i5) as L6.
  destruct (skip_ws s5 i5) as [s6 i6]. cbn [fst] in L6.
  destruct (strip_prefix "}" s6) as [t6|] eqn:E6.
  - apply strip_prefix_length in E6. cbn [String.length scan_good] in *. lia.
  - destruct (strip_prefix "," s6) as [t6|] eqn:E7; [|fault].
    apply strip_prefix_length in E7. cbn [String.length] in E7.
    pose proof (skip_ws_length t6 (S i6)) as L7.
    destruct (skip_ws t6 (S i6)) as [s7 i7]. cbn [fst] in L7.
    pose proof (IH ((key, v) :: pairs) s7 i7 ltac:(lia) ltac:(lia)) as G.
    destruct (members doc scan_value n ((key, v) :: pairs) s7 i7);
      cbn [scan_good] in G |- *; [lia|exact I|exact G].
Qed.

Lemma elements_good (n : nat) :
  forall items s idx,
    String.length s < n -> String.length s < depth ->
    scan_good doc (S (String.length s)) (elements doc scan_value n items s idx).
Proof.
  induction n as [|n IH]; intros items s idx Hn Hd; [lia|].
  cbn [elements].
  pose proof (scan_value_good s idx Hd) as G1.
  destruct (scan_value s idx) as [v s1 i1|i|e];
    cbn [scan_good] in G1 |- *; [|exact I|exact G1].
  pose proof (skip_ws_length s1 i1) as L2.
  destruct (skip_ws s1 i1) as [s2 i2]. cbn [fst] in L2.
  destruct (strip_prefix "]" s2) as [t2|] eqn:E2.
  - apply strip_prefix_length in E2. cbn [String.length scan_good] in *. lia.
  - destruct (strip_prefix "," s2) as [t2|] eqn:E3; [|fault].
    apply strip_prefix_length in E3. cbn [String.length] in E3.
    pose proof (skip_ws_length t2 (S i2)) as L3.
    destruct (skip_ws t2 (S i2)) as [s3 i3]. cbn [fst] in L3.
    pose proof (IH (v :: items) s3 i3 ltac:(lia) ltac:(lia)) as G.
    destruct (elements doc scan_value n (v :: items) s3 i3);
      cbn [scan_good] in G |- *; [lia|exact I|exact G].
Qed.

Lemma parse_object_good (s : str) (idx : nat) :
  String.length s < depth ->
  scan_good doc (S (String.length s)) (parse_object doc scan_value s idx).
Proof.
  intros Hd. unfold parse_object.
  pose proof (skip_ws_length s idx) as L1.
  destruct (skip_ws s idx) as [s1 i1]. cbn [fst] in L1.
  destruct (strip_prefix "}" s1) as [t|] eqn:E.
  - apply strip_prefix_length in E. cbn [String.length scan_good] in *. lia.
  - pose proof (members_good (S (String.length s1)) [] s1 i1
                  ltac:(lia) ltac:(lia)) as G.
    destruct (members doc scan_value (S (String.length s1)) [] s1 i1);
      cbn [scan_good] in G |- *; [lia|exact I|exact G].
Qed.

Lemma parse_array_good (s : str) (idx : nat) :
  String.length s < depth ->
  scan_good doc (S (String.length s)) (parse_array doc scan_value s idx).
Proof.
  intros Hd. unfold parse_array.
  pose proof (skip_ws_length s idx) as L1.
  destruct (skip_ws s idx) as [s1 i1]. cbn [fst] in L1.
  destruct (strip_prefix "]" s1) as [t|] eqn:E.
  - apply strip_prefix_length in E. cbn [String.length scan_good] in *. lia.
  - pose proof (elements_good (S (String.length s1)) [] s1 i1
                  ltac:(lia) ltac:(lia)) as G.
    destruct (elements doc scan_value (S (String.length s1)) [] s1 i1);
      cbn [scan_good] in G |- *; [lia|exact I|exact G].
Qed.

End Progress.

Lemma keyword_good (doc : str) (word : string) (v : value) (s : str) (idx : nat)
  (other : scan value) :
  0 < String.length word ->
  scan_good doc (String.length s) other ->
  scan_good doc (String.length s) (keyword word v s idx other).
Proof.
  intros Hw Ho. unfold keyword.
  destruct (strip_prefix word s) as [t|] eqn:E; [|exact Ho].
  apply strip_prefix_length in E. cbn. lia.
Qed.

Lemma scan_once_good (doc : str) (depth : nat) :
  forall s idx, String.length s < depth ->
    scan_good doc (String.length s) (scan_once doc depth s idx).
Proof.
  induction depth as [|depth IH]; intros s idx Hd; [lia|].
  cbn [scan_once]. destruct s as [|c t]; [exact I|].
  cbn [String.length] in Hd.
  destruct (Ascii.eqb c dquote).
  { pose proof (scanstring_good doc _ t (le_n _) idx "" (S idx)) as G.
    destruct (scanstring doc idx "" t (S idx)); cbn in G |- *; auto. }
  destruct (Ascii.eqb c "{").
  { apply (parse_object_good doc _ depth IH). lia. }
  destruct (Ascii.eqb c "[").
  { apply (parse_array_good doc _ depth IH). lia. }
  repeat (apply keyword_good; [cbn; lia|]).
  pose proof (match_number_good (String c t) idx) as G.
  destruct (match_number (String c t) idx); cbn in G |- *;
    [exact G|exact I|left; exact G].
Qed.

(** [json.loads] returns a value, or raises a [JSONDecodeError] about its
    argument or [ValueError]: the bound on nesting is never met. *)
Lemma loads_total (s : str) :
  match Json.loads s with
  | Ok _ => True
  | Raise e => decode_fault s e
  end.
Proof.
  unfold Json.loads.
  destruct (strip_prefix bom s); [fault|].
  pose proof (skip_ws_length s 0) as L.
  destruct (skip_ws s 0) as [s1 i1]. cbn [fst] in L.
  pose proof (scan_once_good s (S (String.length s)) s1 i1 ltac:(lia)) as G.
  destruct (scan_once s (S (String.length s)) s1 i1) as [v r i|i|e].
  - destruct (skip_ws r i) as [[|c r'] i']; [exact I|fault].
  - fault.
  - exact G.
Qed.

(** *** Laws of the printing monad *)

Section MonadLaws.

Context {A B : Type}.

Lemma bind_lift_Ok (a : A) (k : A -> io B) : bind (lift (Ok a)) k = k a.
Proof.
  unfold bind, lift. destruct (k a) as [out r]. reflexivity.
Qed.

Lemma bind_lift_Raise (e : exn) (k : A -> io B) :
  bind (lift (Raise e)) k = ([], Raise e).
Proof. reflexivity. Qed.

Lemma bind_done (out : stdout) (a : A) (k : A -> io B) :
  bind (out, Ok a) k = ((out ++ fst (k a))%list, snd (k a)).
Proof.
  unfold bind. destruct (k a) as [out' r]. reflexivity.
Qed.

Lemma bind_failed (out : stdout) (e : exn) (k : A -> io B) :
  bind (out, Raise e) k = (out, Raise e).
Proof. reflexivity. Qed.

End MonadLaws.

Lemma bind_print {B : Type} (s : str) (k : unit -> io B) :
  bind (print s) k = (s :: fst (k tt), snd (k tt)).
Proof.
  unfold print. rewrite bind_done. reflexivity.
Qed.


(** *** Rows *)

Lemma get_dict (d : list (str * value)) (key : str) (default : value) :
  get (PDict d) key default
  = Ok (match dict_lookup key d with Some v => v | None => default end).
Proof.
  unfold get. destruct (dict_lookup key d); reflexivity.
Qed.

Lemma show_row_line (row : value) :
  row_ok row = true -> show_row row = ([row_line row], Ok tt).
Proof.
  destruct row as [ | | | | | |r]; try discriminate.
  unfold row_ok, show_row, row_line. intros H.
  apply andb_true_iff in H. destruct H as [Hc Hp].
  rewrite !get_dict, !bind_lift_Ok.
  destruct (dict_lookup "call" r) as [[ | | | | | |c]|]; try discriminate;
  destruct (dict_lookup "put" r) as [[ | | | | | |p]|]; try discriminate;
  rewrite !get_dict, !bind_lift_Ok; unfold delta_of, slot;
  destruct (dict_lookup "strike" r);
  try destruct (dict_lookup "delta" c); try destruct (dict_lookup "delta" p);
  reflexivity.
Qed.



(** *** A payload that is a record *)



(** *** The summary of a record *)



(** *** Placeholders *)




(** *** The scenarios *)

(** C4.  For the frames [report.options] and the SPX record, the output
    shows the lines [Underlying: SPX, Expiry: 2024-01-19, Rows: 1] and
    [Strike 4500: Call delta=0.5, Put delta=-0.5] (the second indented by
    two blanks), between the delimiter and the blank line. *)
Theorem scenario_spx :
  handle_message [Samples.topic; Samples.spx]
  = (["=== TOPIC: report.options ===";
      "Underlying: SPX, Expiry: 2024-01-19, Rows: 1";
      "  Strike 4500: Call delta=0.5, Put delta=-0.5";
      ""], Ok tt)
  /\ shows "Underlying: SPX, Expiry: 2024-01-19, Rows: 1"
       (fst (handle_message [Samples.topic; Samples.spx]))
  /\ shows "Strike 4500: Call delta=0.5, Put delta=-0.5"
       (fst (handle_message [Samples.topic; Samples.spx])).
Proof.
  assert (E : handle_message [Samples.topic; Samples.spx]
              = (["=== TOPIC: report.options ===";
                  "Underlying: SPX, Expiry: 2024-01-19, Rows: 1";
                  "  Strike 4500: Call delta=0.5, Put delta=-0.5";
                  ""], Ok tt)) by (vm_compute; reflexivity).
  rewrite E. split; [reflexivity|].
  unfold shows. cbn. split; [right; left|right; right; left]; reflexivity.
Qed.

(** C5 as it is written fails: for the frames [report.options] and
    [not json] no line of the output reads [Raw: not json...]. *)
Lemma raw_text_line_absent :
  ~ shows "Raw: not json..."
      (fst (handle_message [Samples.topic; Samples.not_json])).
Proof.
  unfold shows. vm_compute.
  intros [H|[H|[H|[H|[]]]]]; discriminate H.
Qed.

(** C5, amended.  For the frames [report.options] and [not json], the
    output shows the decode-error line and after it the line
    [Raw: b'not json'...]: the payload is written as the bytes literal of
    its first 200 bytes, followed by an ellipsis. *)
Theorem scenario_not_json :
  handle_message [Samples.topic; Samples.not_json]
  = (["=== TOPIC: report.options ===";
      "  JSON parse error: Expecting value: line 1 column 1 (char 0)";
      "  Raw: b'not json'...";
      ""], Ok tt)
  /\ shows_next "JSON parse error: Expecting value: line 1 column 1 (char 0)"
       "Raw: b'not json'..."
       (fst (handle_message [Samples.topic; Samples.not_json]))
  /\ repr_bytes (bytes_prefix 200 Samples.not_json) = "b'not json'".
Proof.
  assert (E : handle_message [Samples.topic; Samples.not_json]
              = (["=== TOPIC: report.options ===";
                  "  JSON parse error: Expecting value: line 1 column 1 (char 0)";
                  "  Raw: b'not json'...";
                  ""], Ok tt)) by (vm_compute; reflexivity).
  rewrite E. split; [reflexivity|]. split; [|reflexivity].
  cbn. right. left. split; reflexivity.
Qed.

(** *** A message without payload *)

(** C6.  For a message of frame 0 alone, the output is the delimiter that
    names the topic and the blank line, and nothing else. *)
Theorem topic_only_message (frame0 : bytes) (topic : str) :
  decode_utf8 frame0 = Ok topic ->
  handle_message [frame0] = ([delimiter topic; ""], Ok tt).
Proof.
  intros H. unfold handle_message. cbn [topic_of].
  rewrite H, bind_lift_Ok. reflexivity.
Qed.

Lemma topic_only_message_witness :
  handle_message [Samples.topic] = (["=== TOPIC: report.options ==="; ""], Ok tt).
Proof.
  exact (topic_only_message Samples.topic Samples.topic eq_refl).
Defined.

(** *** A payload that does not decode *)

Lemma bytes_prefix_length (n : nat) (b : bytes) :
  String.length (bytes_prefix n b) <= n.
Proof.
  unfold bytes_prefix. revert b.
  induction n as [|n IH]; intros [|c b]; cbn; try lia.
  specialize (IH b). lia.
Qed.

(** A payload that is text but not JSON is reported, with the bytes
    literal of at most its first 200 bytes, and the pass ends normally. *)
Lemma json_error_reported
  (frame0 payload : bytes) (more : list bytes) (topic text : str)
  (msg doc : str) (pos : nat) :
  decode_utf8 frame0 = Ok topic ->
  decode_utf8 payload = Ok text ->
  Json.loads text = Raise (JSONDecodeError msg doc pos) ->
  handle_message (frame0 :: payload :: more)
  = ([delimiter topic;
      "  JSON parse error: " ++ PyErr.to_str (JSONDecodeError msg doc pos);
      "  Raw: " ++ repr_bytes (bytes_prefix 200 payload) ++ "...";
      ""], Ok tt).
Proof.
  intros H0 H1 H2. unfold handle_message. cbn [topic_of].
  rewrite H0, bind_lift_Ok, bind_print. cbn [length Nat.ltb Nat.leb nth].
  unfold show_payload.
  rewrite H1, bind_lift_Ok, H2, bind_lift_Raise.
  reflexivity.
Qed.

(** A pass that ends normally leaves the loop running. *)
Lemma loop_continues (msg : list bytes) (out : stdout) (rest : list event) :
  handle_message msg = (out, Ok tt) ->
  loop (Message msg :: rest) = ((out ++ fst (loop rest))%list, snd (loop rest)).
Proof.
  intros H. cbn [loop]. unfold guarded_pass. cbn [pass].
  rewrite H, bind_done. cbn [fst snd ret try_except].
  rewrite app_nil_r. destruct (loop rest). reflexivity.
Qed.

(** An exception that is neither caught in the pass nor an interrupt ends
    the process with status 1. *)
Lemma loop_fault (msg : list bytes) (out : stdout) (e : exn)
  (rest : list event) :
  handle_message msg = (out, Raise e) ->
  is_KeyboardInterrupt e = false ->
  loop (Message msg :: rest) = (out, Exited 1).
Proof.
  intros H He. cbn [loop]. unfold guarded_pass. cbn [pass].
  rewrite H, bind_failed. cbn [try_except]. rewrite He. reflexivity.
Qed.

(** C2, at the input where the script departs from it.  A frame 1 that is
    not UTF-8 cannot be decoded as structured text, yet no error line and
    no raw preview are printed for it: [UnicodeDecodeError] is not the
    exception the handler names, the loop does not go on to the next
    message and the process ends with status 1. *)
Theorem payload_not_utf8_ends_process :
  decode_utf8 Samples.not_utf8 = Raise UnicodeDecodeError
  /\ handle_message [Samples.topic; Samples.not_utf8]
     = (["=== TOPIC: report.options ==="], Raise UnicodeDecodeError)
  /\ forall rest,
       loop (Message [Samples.topic; Samples.not_utf8] :: rest)
       = (["=== TOPIC: report.options ==="], Exited 1).
Proof.
  split; [reflexivity|].
  assert (E : handle_message [Samples.topic; Samples.not_utf8]
              = (["=== TOPIC: report.options ==="], Raise UnicodeDecodeError))
    by (vm_compute; reflexivity).
  split; [exact E|].
  intros rest. apply (loop_fault _ _ _ rest E). reflexivity.
Qed.

(** *** Interrupts *)

Lemma loop_app (evs rest : list event) (out : stdout) :
  loop evs = (out, Receiving) ->
  loop (evs ++ rest)%list = ((out ++ fst (loop rest))%list, snd (loop rest)).
Proof.
  revert out. induction evs as [|ev evs IH]; intros out H.
  - cbn in H. injection H as <-. cbn. destruct (loop rest). reflexivity.
  - cbn [loop app] in *.
    destruct (guarded_pass ev) as [o [[|]|e]]; try discriminate.
    destruct (loop evs) as [o' st] eqn:E.
    injection H as <- ->.
    rewrite (IH o' eq_refl). cbn [fst snd].
    rewrite app_assoc. reflexivity.
Qed.

Lemma loop_interrupt (rest : list event) :
  loop (Raised KeyboardInterrupt :: rest) = ([stopped], Exited 0).
Proof. reflexivity. Qed.

Lemma loop_interrupted (msg : list bytes) (k : nat) (rest : list event) :
  loop (Interrupted msg k :: rest)
  = ((firstn k (fst (handle_message msg)) ++ [stopped])%list, Exited 0).
Proof.
  cbn [loop]. unfold guarded_pass. cbn [pass].
  rewrite bind_failed. reflexivity.
Qed.

Lemma main_connected (w : world) :
  connect w (address_of (argv w)) = Ok tt ->
  main w = ((banner (address_of (argv w)) ++ fst (loop (events w)))%list,
            snd (loop (events w))).
Proof.
  intros H. unfold main. rewrite H, bind_lift_Ok.
  cbn. destruct (loop (events w)). reflexivity.
Qed.

(** C7.  Once the script is connected and while the loop is running, an
    interrupt, whether it arrives while the receive blocks or while a
    message is being handled, ends the loop: the notice [Stopped.] is
    printed after a blank line, nothing that arrives later is handled, and
    the process exits with status 0. *)
Theorem interrupt_stops_loop
  (w : world) (evs rest : list event) (out : stdout) :
  connect w (address_of (argv w)) = Ok tt ->
  loop evs = (out, Receiving) ->
  (events w = (evs ++ Raised KeyboardInterrupt :: rest)%list ->
   main w = ((banner (address_of (argv w)) ++ out ++ [stopped])%list, Exited 0))
  /\ (forall msg k,
        events w = (evs ++ Interrupted msg k :: rest)%list ->
        main w = ((banner (address_of (argv w)) ++ out
                     ++ firstn k (fst (handle_message msg)) ++ [stopped])%list,
                  Exited 0)).
Proof.
  intros Hc Hl. split.
  - intros Hev. rewrite (main_connected w Hc), Hev, (loop_app _ _ _ Hl).
    rewrite loop_interrupt. reflexivity.
  - intros msg k Hev. rewrite (main_connected w Hc), Hev, (loop_app _ _ _ Hl).
    rewrite loop_interrupted. reflexivity.
Qed.

Lemma interrupt_stops_loop_witness :
  main (Samples.session
          [Message [Samples.topic; Samples.spx]; Raised KeyboardInterrupt;
           Message [Samples.topic]])
  = ((banner default_address ++ Samples.spx_output ++ [stopped])%list, Exited 0)
  /\ main (Samples.session
             [Message [Samples.topic; Samples.spx];
              Interrupted [Samples.topic; Samples.spx] 2;
              Message [Samples.topic]])
     = ((banner default_address ++ Samples.spx_output
           ++ ["=== TOPIC: report.options ===";
               "Underlying: SPX, Expiry: 2024-01-19, Rows: 1"]
           ++ [stopped])%list, Exited 0).
Proof.
  split.
  - apply (proj1 (interrupt_stops_loop
                    (Samples.session
                       [Message [Samples.topic; Samples.spx];
                        Raised KeyboardInterrupt; Message [Samples.topic]])
                    [Message [Samples.topic; Samples.spx]]
                    [Message [Samples.topic]] Samples.spx_output
                    eq_refl eq_refl)).
    reflexivity.
  - apply (proj2 (interrupt_stops_loop
                    (Samples.session
                       [Message [Samples.topic; Samples.spx];
                        Interrupted [Samples.topic; Samples.spx] 2;
                        Message [Samples.topic]])
                    [Message [Samples.topic; Samples.spx]]
                    [Message [Samples.topic]] Samples.spx_output
                    eq_refl eq_refl) [Samples.topic; Samples.spx] 2).
    reflexivity.
Defined.

(** *** The topic *)

(** C8.  The topic is the text of frame 0; a message without frames has
    the empty topic, reading frame 0 of it raises nothing, and its delimiter
    is printed with that empty topic. *)
Theorem topic_from_frame0 :
  topic_of [] = Ok ""
  /\ handle_message [] = (["=== TOPIC:  ==="; ""], Ok tt)
  /\ (forall frame0 more topic,
        decode_utf8 frame0 = Ok topic ->
        topic_of (frame0 :: more) = Ok topic
        /\ exists lines r,
             handle_message (frame0 :: more) = (delimiter topic :: lines, r)).
Proof.
  split; [reflexivity|]. split; [reflexivity|].
  intros frame0 more topic H. split; [exact H|].
  unfold handle_message. cbn [topic_of]. rewrite H, bind_lift_Ok, bind_print.
  eexists. eexists. reflexivity.
Qed.

Lemma topic_from_frame0_witness :
  topic_of [Samples.topic; Samples.spx] = Ok "report.options"
  /\ exists lines r,
       handle_message [Samples.topic; Samples.spx]
       = (delimiter "report.options" :: lines, r).
Proof.
  exact (proj2 (proj2 topic_from_frame0) Samples.topic [Samples.spx]
           "report.options" eq_refl).
Defined.

(** *** The endpoint *)

(** C9.  The endpoint is the first argument after the script's name, as
    it is given, whatever arguments follow it, and [tcp://localhost:5556]
    when there is none; it is the address the script connects to and names
    in its first line. *)
Theorem endpoint_from_argument :
  (forall prog, address_of [prog] = "tcp://localhost:5556")
  /\ address_of [] = "tcp://localhost:5556"
  /\ (forall prog address others, address_of (prog :: address :: others) = address)
  /\ (forall w,
        main w
        = match connect w (address_of (argv w)) with
          | Ok _ =>
              (("Connected to " ++ address_of (argv w))
                 :: ("Listening for report.options messages..." ++ String "010" "")
                 :: fst (loop (events w)), snd (loop (events w)))
          | Raise _ => ([], Exited 1)
          end).
Proof.
  split; [reflexivity|]. split; [reflexivity|]. split; [reflexivity|].
  intros w. destruct (connect w (address_of (argv w))) as [[]|e] eqn:E.
  - apply (main_connected w E).
  - unfold main. rewrite E. reflexivity.
Qed.

(** *** Frames beyond the second *)

(** C10.  Two messages with the same first two frames (or the same single
    frame, or no frame) give the same output and the same outcome, whatever
    frames follow. *)
Theorem later_frames_ignored (msg1 msg2 : list bytes) :
  firstn 2 msg1 = firstn 2 msg2 ->
  handle_message msg1 = handle_message msg2.
Proof.
  destruct msg1 as [|a1 [|b1 r1]], msg2 as [|a2 [|b2 r2]]; cbn [firstn];
    intros H; try discriminate H; try reflexivity.
  - injection H as ->. reflexivity.
  - injection H as -> ->. reflexivity.
Qed.

Lemma later_frames_ignored_witness :
  handle_message [Samples.topic; Samples.spx]
  = handle_message [Samples.topic; Samples.spx; Samples.not_utf8; Samples.not_json].
Proof.
  apply (later_frames_ignored [Samples.topic; Samples.spx]
           [Samples.topic; Samples.spx; Samples.not_utf8; Samples.not_json]).
  reflexivity.
Defined.

(* ------------------------------------------------------------------ *)
(** ** Further properties of the script *)

(** *** The raw preview *)

Lemma bytes_prefix_split (n : nat) (b : bytes) :
  exists rest, b = bytes_prefix n b ++ rest
               /\ String.length (bytes_prefix n b) = Nat.min n (String.length b).
Proof.
  unfold bytes_prefix. revert b.
  induction n as [|n IH]; intros [|c b]; cbn.
  - exists "". split; reflexivity.
  - exists (String c b). split; reflexivity.
  - exists "". split; reflexivity.
  - destruct (IH b) as [rest [E L]]. exists rest. split.
    + f_equal. exact E.
    + f_equal. exact L.
Qed.

Lemma bytes_prefix_all (n : nat) (b : bytes) :
  String.length b <= n -> bytes_prefix n b = b.
Proof.
  unfold bytes_prefix. revert b.
  induction n as [|n IH]; intros [|c b] H; cbn in *; try reflexivity; try lia.
  f_equal. apply IH. lia.
Qed.

Lemma string_length_app (a b : string) :
  String.length (a ++ b) = String.length a + String.length b.
Proof.
  induction a as [|c a IH]; cbn; [reflexivity|]. rewrite IH. reflexivity.
Qed.

Lemma all_chars_app (p : ascii -> bool) (a b : string) :
  all_chars p (a ++ b) = all_chars p a && all_chars p b.
Proof.
  induction a as [|c a IH]; cbn; [reflexivity|].
  rewrite IH, andb_assoc. reflexivity.
Qed.

Lemma escape_char_bytes (q c : ascii) :
  q = "'"%char \/ q = dquote ->
  all_chars printable (escape_char false q c) = true
  /\ 1 <= String.length (escape_char false q c) <= 4.
Proof.
  intros [-> | ->];
    destruct c as [[|] [|] [|] [|] [|] [|] [|] [|]];
    vm_compute; (split; [reflexivity | split; lia]).
Qed.

Lemma escape_all_bytes (q : ascii) (b : bytes) :
  q = "'"%char \/ q = dquote ->
  all_chars printable (escape_all false q b) = true
  /\ String.length b <= String.length (escape_all false q b)
     <= 4 * String.length b.
Proof.
  intros Hq. induction b as [|c b [IHp IHl]]; cbn [escape_all].
  - split; [reflexivity|cbn; lia].
  - destruct (escape_char_bytes q c Hq) as [Hp Hl].
    rewrite all_chars_app, string_length_app, Hp, IHp.
    split; [reflexivity|]. cbn [String.length]. lia.
Qed.

Lemma quote_for_cases (s : string) :
  quote_for s = "'"%char \/ quote_for s = dquote.
Proof.
  unfold quote_for.
  destruct (contains "'" s && negb (contains dquote s)); [right|left]; reflexivity.
Qed.

Lemma repr_bytes_shape (b : bytes) :
  all_chars printable (repr_bytes b) = true
  /\ String.length b + 3 <= String.length (repr_bytes b)
     <= 4 * String.length b + 3.
Proof.
  unfold repr_bytes.
  pose proof (quote_for_cases b) as Hq.
  destruct (escape_all_bytes (quote_for b) b Hq) as [Hp Hl].
  cbn [all_chars String.length].
  rewrite all_chars_app, string_length_app, Hp. cbn [all_chars String.length].
  split; [|lia].
  destruct Hq as [-> | ->]; reflexivity.
Qed.

(** X3.  Whatever bytes the payload holds, the line of its raw preview is
    made of printable ASCII characters only, and is at most 813 characters
    long. *)
Theorem raw_line_printable_and_bounded (payload : bytes) :
  all_chars printable (raw_line payload) = true
  /\ String.length (raw_line payload) <= 813.
Proof.
  unfold raw_line.
  destruct (repr_bytes_shape (bytes_prefix 200 payload)) as [Hp Hl].
  pose proof (bytes_prefix_length 200 payload) as L.
  split.
  - rewrite !all_chars_app, Hp. reflexivity.
  - rewrite !string_length_app. cbn [String.length]. lia.
Qed.

(** X2.  The raw preview is written from a prefix of the payload: its
    first 200 bytes, or all of it when it has no more than 200. *)
Theorem raw_preview_is_prefix (payload : bytes) :
  (exists rest, payload = bytes_prefix 200 payload ++ rest)
  /\ String.length (bytes_prefix 200 payload)
     = Nat.min 200 (String.length payload)
  /\ (String.length payload <= 200 ->
      raw_line payload = "  Raw: " ++ repr_bytes payload ++ "...").
Proof.
  destruct (bytes_prefix_split 200 payload) as [rest [E L]].
  split; [exists rest; exact E|]. split; [exact L|].
  intros H. unfold raw_line. rewrite (bytes_prefix_all _ _ H). reflexivity.
Qed.

Lemma raw_preview_is_prefix_witness :
  raw_line Samples.not_json = "  Raw: b'not json'...".
Proof.
  rewrite (proj2 (proj2 (raw_preview_is_prefix Samples.not_json)));
    [reflexivity | cbn; lia].
Defined.

(** *** A payload that is text but not JSON *)

(** X1.  A frame 1 that is text but that [json.loads] rejects is reported
    by the error line and the raw preview, between the delimiter and the
    blank line; the pass ends normally and the loop goes on with what
    arrives next. *)
Theorem decode_error_reported_loop_goes_on
  (frame0 payload : bytes) (more : list bytes) (topic text : str)
  (msg doc : str) (pos : nat) (rest : list event) :
  decode_utf8 frame0 = Ok topic ->
  decode_utf8 payload = Ok text ->
  Json.loads text = Raise (JSONDecodeError msg doc pos) ->
  handle_message (frame0 :: payload :: more)
  = ([delimiter topic;
      "  JSON parse error: " ++ PyErr.to_str (JSONDecodeError msg doc pos);
      raw_line payload;
      ""], Ok tt)
  /\ loop (Message (frame0 :: payload :: more) :: rest)
     = ((fst (handle_message (frame0 :: payload :: more)) ++ fst (loop rest))%list,
        snd (loop rest)).
Proof.
  intros H0 H1 H2.
  pose proof (json_error_reported _ _ more _ _ _ _ _ H0 H1 H2) as E.
  split; [exact E|].
  rewrite (loop_continues _ _ rest E), E. reflexivity.
Qed.

Lemma decode_error_reported_loop_goes_on_witness :
  loop [Message [Samples.topic; Samples.not_json];
        Message [Samples.topic]]
  = (["=== TOPIC: report.options ===";
      "  JSON parse error: Expecting value: line 1 column 1 (char 0)";
      "  Raw: b'not json'...";
      "";
      "=== TOPIC: report.options ===";
      ""], Receiving).
Proof.
  rewrite (proj2 (decode_error_reported_loop_goes_on
                    Samples.topic Samples.not_json [] Samples.topic
                    Samples.not_json "Expecting value" Samples.not_json 0
                    [Message [Samples.topic]] eq_refl eq_refl eq_refl)).
  reflexivity.
Defined.

(** *** Frames that are not UTF-8 *)

Lemma decode_utf8_cases (b : bytes) :
  decode_utf8 b = Ok b \/ decode_utf8 b = Raise UnicodeDecodeError.
Proof.
  unfold decode_utf8. destruct (utf8_valid b); [left|right]; reflexivity.
Qed.

(** X5.  A frame 0 that is not UTF-8 ends the process with status 1
    before anything is printed for the message; a frame 1 that is not UTF-8
    ends it after the delimiter.  What arrives later is not handled. *)
Theorem frame_not_utf8_ends_process
  (frame0 payload : bytes) (more : list bytes) (rest : list event) :
  (utf8_valid frame0 = false ->
   handle_message (frame0 :: more) = ([], Raise UnicodeDecodeError)
   /\ loop (Message (frame0 :: more) :: rest) = ([], Exited 1))
  /\ (utf8_valid frame0 = true -> utf8_valid payload = false ->
      handle_message (frame0 :: payload :: more)
      = ([delimiter frame0], Raise UnicodeDecodeError)
      /\ loop (Message (frame0 :: payload :: more) :: rest)
         = ([delimiter frame0], Exited 1)).
Proof.
  split.
  - intros H.
    assert (E : handle_message (frame0 :: more) = ([], Raise UnicodeDecodeError)).
    { unfold handle_message. cbn [topic_of]. unfold decode_utf8. rewrite H.
      reflexivity. }
    split; [exact E|]. apply (loop_fault _ _ _ rest E). reflexivity.
  - intros H0 H1.
    assert (E : handle_message (frame0 :: payload :: more)
                = ([delimiter frame0], Raise UnicodeDecodeError)).
    { unfold handle_message. cbn [topic_of]. unfold decode_utf8 at 1.
      rewrite H0, bind_lift_Ok, bind_print. cbn [length Nat.ltb Nat.leb nth].
      unfold show_payload, decode_utf8. rewrite H1, bind_lift_Raise.
      reflexivity. }
    split; [exact E|]. apply (loop_fault _ _ _ rest E). reflexivity.
Qed.

Lemma frame_not_utf8_ends_process_witness :
  handle_message [Samples.not_utf8; Samples.spx] = ([], Raise UnicodeDecodeError)
  /\ loop [Message [Samples.topic; Samples.not_utf8; Samples.spx];
           Message [Samples.topic]]
     = (["=== TOPIC: report.options ==="], Exited 1).
Proof.
  split.
  - exact (proj1 (proj1 (frame_not_utf8_ends_process Samples.not_utf8
                           Samples.spx [Samples.spx] []) eq_refl)).
  - exact (proj2 (proj2 (frame_not_utf8_ends_process Samples.topic
                           Samples.not_utf8 [Samples.spx]
                           [Message [Samples.topic]]) eq_refl eq_refl)).
Defined.

(** *** Payloads outside the schema *)

Lemma get_not_dict (x : value) (key : str) (default : value) :
  is_dict x = false -> get x key default = Raise AttributeError.
Proof. destruct x; (discriminate || reflexivity). Qed.

Lemma handle_payload (frame0 payload : bytes) (more : list bytes)
  (topic : str) :
  decode_utf8 frame0 = Ok topic ->
  handle_message (frame0 :: payload :: more)
  = bind (print (delimiter topic))
      (fun _ => bind (try_except (show_payload payload) is_JSONDecodeError
                        (report_error payload))
                  (fun _ => print "")).
Proof.
  intros H. unfold handle_message. cbn [topic_of].
  rewrite H, bind_lift_Ok. reflexivity.
Qed.

(** X6.  A payload that is JSON but not an object (an array, a string, a
    number, [true], [false], [null]) has no [get]: the delimiter is printed,
    [AttributeError] is raised and the process ends with status 1. *)
Theorem payload_not_object_ends_process
  (frame0 payload : bytes) (more : list bytes) (topic text : str)
  (data : value) (rest : list event) :
  decode_utf8 frame0 = Ok topic ->
  decode_utf8 payload = Ok text ->
  Json.loads text = Ok data ->
  is_dict data = false ->
  handle_message (frame0 :: payload :: more)
  = ([delimiter topic], Raise AttributeError)
  /\ loop (Message (frame0 :: payload :: more) :: rest)
     = ([delimiter topic], Exited 1).
Proof.
  intros H0 H1 H2 Hd.
  assert (E : handle_message (frame0 :: payload :: more)
              = ([delimiter topic], Raise AttributeError)).
  { rewrite (handle_payload _ _ _ _ H0). unfold show_payload.
    rewrite H1, bind_lift_Ok, H2, bind_lift_Ok.
    rewrite (get_not_dict _ _ _ Hd), bind_lift_Raise. reflexivity. }
  split; [exact E|]. apply (loop_fault _ _ _ rest E). reflexivity.
Qed.



(** *** Rows outside the schema *)

Lemma show_row_fault (row : value) :
  row_ok row = false -> show_row row = ([], Raise AttributeError).
Proof.
  destruct row as [ | | | | | |r]; try reflexivity.
  unfold row_ok, show_row. intros H.
  rewrite !get_dict, !bind_lift_Ok.
  destruct (dict_lookup "call" r) as [[ | | | | | |c]|];
    destruct (dict_lookup "put" r) as [[ | | | | | |p]|];
    try discriminate H; try reflexivity;
    rewrite ?get_dict, ?bind_lift_Ok; reflexivity.
Qed.



(** *** What a pass can end with *)

Lemma raises_only_bind {A B : Type} (allowed : exn -> bool)
  (m : io A) (k : A -> io B) :
  raises_only allowed m ->
  (forall a, raises_only allowed (k a)) ->
  raises_only allowed (bind m k).
Proof.
  unfold raises_only. destruct m as [out [a|e]]; cbn [snd bind].
  - intros _ H. specialize (H a). destruct (k a). exact H.
  - intros H _. exact H.
Qed.

Lemma raises_only_get (allowed : exn -> bool) (x : value) (key : str)
  (default : value) :
  allowed AttributeError = true ->
  raises_only allowed (lift (get x key default)).
Proof.
  intros H. unfold raises_only, get.
  destruct x; try exact H. destruct (dict_lookup key d); exact I.
Qed.

Lemma raises_only_show_row (row : value) :
  raises_only payload_fault (show_row row).
Proof.
  unfold raises_only. destruct (row_ok row) eqn:E.
  - rewrite (show_row_line _ E). exact I.
  - rewrite (show_row_fault _ E). reflexivity.
Qed.

Lemma raises_only_for_each (items : list value) :
  raises_only payload_fault (for_each items show_row).
Proof.
  induction items as [|row items IH]; cbn [for_each]; [exact I|].
  apply raises_only_bind; [apply raises_only_show_row|intros _; exact IH].
Qed.

Lemma raises_only_show_payload (payload : bytes) :
  raises_only payload_fault (show_payload payload).
Proof.
  unfold show_payload.
  apply raises_only_bind.
  { destruct (decode_utf8_cases payload) as [-> | ->]; [exact I|reflexivity]. }
  intros text. apply raises_only_bind.
  { pose proof (loads_total text) as T. unfold raises_only, lift. cbn [snd].
    destruct (Json.loads text) as [v|e]; [exact I|].
    destruct T as [-> | [msg [pos ->]]]; reflexivity. }
  intros data.
  do 3 (apply raises_only_bind; [apply raises_only_get; reflexivity|intros ?]).
  rename a1 into rows.
  apply raises_only_bind.
  { destruct rows; cbn; (exact I || reflexivity). }
  intros n. apply raises_only_bind; [exact I|intros _].
  apply raises_only_bind.
  { destruct rows; cbn; (exact I || reflexivity). }
  intros first_rows. apply raises_only_bind.
  { destruct first_rows; cbn; (exact I || reflexivity). }
  intros items. apply raises_only_bind; [apply raises_only_for_each|intros _].
  apply raises_only_bind.
  { destruct rows; cbn; (exact I || reflexivity). }
  intros n'. destruct (3 <? n')%nat; exact I.
Qed.

Lemma handle_message_faults (msg : list bytes) :
  raises_only pass_fault (handle_message msg).
Proof.
  unfold handle_message.
  apply raises_only_bind.
  { destruct msg as [|frame0 more]; [exact I|]. cbn [topic_of].
    destruct (decode_utf8_cases frame0) as [-> | ->]; [exact I|reflexivity]. }
  intros topic. apply raises_only_bind; [exact I|intros _].
  apply raises_only_bind; [|intros _; exact I].
  destruct (1 <? length msg)%nat; [|exact I].
  pose proof (raises_only_show_payload (nth 1 msg "")) as P.
  unfold raises_only, try_except in *.
  destruct (show_payload (nth 1 msg "")) as [out [[]|e]]; [exact I|].
  cbn [snd] in P.
  destruct e; cbn in P |- *; try discriminate P; reflexivity.
Qed.


(** X10.  Whatever exception handling a message ends with, the process
    ends with status 1 having printed what the message printed so far, and
    the notice [Stopped.] is not printed. *)
Theorem fault_ends_process (msg : list bytes) (out : stdout) (e : exn)
  (rest : list event) :
  handle_message msg = (out, Raise e) ->
  loop (Message msg :: rest) = (out, Exited 1).
Proof.
  intros H. apply (loop_fault _ _ e rest H).
  pose proof (handle_message_faults msg) as F. unfold raises_only in F.
  rewrite H in F. cbn [snd] in F. destruct e; (reflexivity || discriminate F).
Qed.

(** *** The loop *)

Lemma guarded_pass_message (msg : list bytes) :
  guarded_pass (Message msg)
  = match handle_message msg with
    | (out, Ok _) => (out, Ok Continue)
    | (out, Raise e) => (out, Raise e)
    end.
Proof.
  pose proof (handle_message_faults msg) as F. unfold raises_only in F.
  unfold guarded_pass. cbn [pass].
  destruct (handle_message msg) as [out [[]|e]].
  - rewrite bind_done. cbn. rewrite app_nil_r. reflexivity.
  - rewrite bind_failed. cbn [snd] in F. cbn [try_except].
    destruct e; (reflexivity || discriminate F).
Qed.

Lemma guarded_pass_raised (e : exn) :
  guarded_pass (Raised e)
  = if is_KeyboardInterrupt e then ([stopped], Ok Break) else ([], Raise e).
Proof. destruct e; reflexivity. Qed.

Lemma guarded_pass_interrupted (msg : list bytes) (k : nat) :
  guarded_pass (Interrupted msg k)
  = ((firstn k (fst (handle_message msg)) ++ [stopped])%list, Ok Break).
Proof.
  unfold guarded_pass. cbn [pass]. rewrite bind_failed. reflexivity.
Qed.

(** X11.  The status tells what happened: the loop is still receiving
    only if every event was a message handled normally; status 0 is reached
    only through an interrupt, and then the output ends with the notice
    [Stopped.]; status 1 needs an event that is not an interrupt; there is
    no other status. *)
Theorem exit_status_tells_what_happened (evs : list event) :
  match snd (loop evs) with
  | Receiving =>
      Forall (fun ev => exists msg,
                ev = Message msg /\ snd (handle_message msg) = Ok tt) evs
  | Exited 0 =>
      existsb is_interrupt evs = true
      /\ exists before, fst (loop evs) = (before ++ [stopped])%list
  | Exited 1 => exists ev, In ev evs /\ is_interrupt ev = false
  | Exited _ => False
  end.
Proof.
  induction evs as [|ev evs IH]; [constructor|].
  cbn [loop existsb].
  destruct ev as [msg|e|msg k].
  - rewrite guarded_pass_message.
    destruct (handle_message msg) as [out [[]|e]] eqn:E.
    + destruct (loop evs) as [out' st]. cbn [snd fst] in *.
      destruct st as [|[|[|c]]]; cbn [is_interrupt orb].
      * constructor; [|exact IH]. exists msg. rewrite E. split; reflexivity.
      * destruct IH as [Hi [before Hb]]. split; [exact Hi|].
        exists (out ++ before)%list. rewrite Hb, app_assoc. reflexivity.
      * destruct IH as [ev [Hin Hev]]. exists ev. split; [right; exact Hin|exact Hev].
      * exact IH.
    + cbn [snd]. exists (Message msg). split; [left; reflexivity|reflexivity].
  - rewrite guarded_pass_raised.
    destruct (is_KeyboardInterrupt e) eqn:K; cbn [snd fst].
    + destruct e; try discriminate K. split; [reflexivity|].
      exists []. reflexivity.
    + exists (Raised e). split; [left; reflexivity|].
      destruct e; (reflexivity || discriminate K).
  - rewrite guarded_pass_interrupted. cbn [snd fst is_interrupt orb].
    split; [reflexivity|]. exists (firstn k (fst (handle_message msg))).
    reflexivity.
Qed.

Lemma loop_exited (evs rest : list event) (out : stdout) (code : nat) :
  loop evs = (out, Exited code) ->
  loop (evs ++ rest)%list = (out, Exited code).
Proof.
  revert out. induction evs as [|ev evs IH]; intros out H; [discriminate H|].
  cbn [loop app] in *.
  destruct (guarded_pass ev) as [o [[|]|e]]; try exact H.
  destruct (loop evs) as [o' st] eqn:E.
  injection H as <- ->. rewrite (IH o' eq_refl). reflexivity.
Qed.

(** X12.  Events that arrive while the loop is receiving are handled
    after the ones before them, their output following; events that
    arrive once the process has exited change nothing. *)
Theorem loop_over_more_events (evs rest : list event) (out : stdout) :
  (loop evs = (out, Receiving) ->
   loop (evs ++ rest)%list = ((out ++ fst (loop rest))%list, snd (loop rest)))
  /\ (forall code,
        loop evs = (out, Exited code) ->
        loop (evs ++ rest)%list = (out, Exited code)).
Proof.
  split.
  - apply loop_app.
  - intros code. apply loop_exited.
Qed.

Lemma loop_messages (msgs : list (list bytes)) :
  Forall (fun msg => snd (handle_message msg) = Ok tt) msgs ->
  loop (map Message msgs) = (outputs msgs, Receiving).
Proof.
  unfold outputs.
  induction 1 as [|msg msgs Hm _ IH]; [reflexivity|].
  cbn [map concat].
  destruct (handle_message msg) as [out r] eqn:E. cbn [snd fst] in *. subst r.
  rewrite (loop_continues _ _ _ E), IH. reflexivity.
Qed.

(** X13.  Connected, and given only messages that are handled normally,
    the script prints its two opening lines and then the output of each
    message in turn, and goes on receiving: no message changes what a later
    one prints. *)
Theorem messages_handled_one_by_one (w : world) (msgs : list (list bytes)) :
  connect w (address_of (argv w)) = Ok tt ->
  events w = map Message msgs ->
  Forall (fun msg => snd (handle_message msg) = Ok tt) msgs ->
  main w = ((banner (address_of (argv w)) ++ outputs msgs)%list, Receiving).
Proof.
  intros Hc Hev Hm.
  rewrite (main_connected w Hc), Hev, (loop_messages _ Hm). reflexivity.
Qed.

(** *** The frame of a message's output *)

(** X14.  Whatever a message prints starts with the delimiter that names
    its topic, and when the pass ends normally it ends with the blank
    line. *)
Theorem output_framed_by_delimiter_and_blank (msg : list bytes) (out : stdout) :
  (forall r, handle_message msg = (out, r) -> out <> [] ->
     exists topic lines, topic_of msg = Ok topic /\ out = delimiter topic :: lines)
  /\ (handle_message msg = (out, Ok tt) ->
      exists topic middle,
        topic_of msg = Ok topic
        /\ out = (delimiter topic :: middle ++ [""])%list).
Proof.
  unfold handle_message.
  destruct (topic_of msg) as [topic|e].
  - rewrite bind_lift_Ok, bind_print.
    set (body := if (1 <? length msg)%nat then _ else _).
    split.
    + intros r H _. injection H as <- _. eexists. eexists.
      split; reflexivity.
    + intros H. injection H as <- Hr.
      exists topic. destruct body as [o [[]|e]].
      * rewrite bind_done. cbn [fst print]. exists o. split; reflexivity.
      * rewrite bind_failed in Hr. discriminate Hr.
  - rewrite bind_lift_Raise. split.
    + intros r H Hne. injection H as <- _. contradiction.
    + intros H. discriminate H.
Qed.

(** *** Edge cases of the frames *)

Lemma ascii_is_utf8 (b : bytes) :
  all_chars is_ascii b = true -> utf8_valid b = true.
Proof.
  induction b as [|c b IH]; [reflexivity|].
  cbn [all_chars utf8_valid]. unfold is_ascii at 1. intros H.
  apply andb_true_iff in H. destruct H as [Hc Hb].
  cbv zeta. rewrite Hc. exact (IH Hb).
Qed.

(** X15.  A frame 0 of ASCII characters always decodes to itself: a
    message of that frame alone prints its delimiter and the blank line. *)
Theorem ascii_topic_always_named (frame0 : bytes) :
  all_chars is_ascii frame0 = true ->
  topic_of [frame0] = Ok frame0
  /\ handle_message [frame0] = ([delimiter frame0; ""], Ok tt).
Proof.
  intros H. apply ascii_is_utf8 in H.
  assert (D : decode_utf8 frame0 = Ok frame0)
    by (unfold decode_utf8; rewrite H; reflexivity).
  split; [exact D|].
  unfold handle_message. cbn [topic_of]. rewrite D, bind_lift_Ok. reflexivity.
Qed.

Lemma ascii_topic_always_named_witness :
  topic_of [Samples.topic] = Ok Samples.topic
  /\ handle_message [Samples.topic]
     = ([delimiter Samples.topic; ""], Ok tt).
Proof.
  exact (ascii_topic_always_named Samples.topic eq_refl).
Defined.

(** X4.  An empty frame 1 is reported as a decode error at line 1
    column 1, with the preview of the empty bytes literal. *)
Theorem empty_payload_reported
  (frame0 : bytes) (more : list bytes) (topic : str) :
  decode_utf8 frame0 = Ok topic ->
  handle_message (frame0 :: "" :: more)
  = ([delimiter topic;
      "  JSON parse error: Expecting value: line 1 column 1 (char 0)";
      "  Raw: b''...";
      ""], Ok tt).
Proof.
  intros H0.
  exact (json_error_reported frame0 "" more topic "" "Expecting value" "" 0
           H0 eq_refl eq_refl).
Qed.

Lemma empty_payload_reported_witness :
  handle_message [Samples.topic; ""; Samples.spx]
  = (["=== TOPIC: report.options ===";
      "  JSON parse error: Expecting value: line 1 column 1 (char 0)";
      "  Raw: b''...";
      ""], Ok tt).
Proof.
  exact (empty_payload_reported Samples.topic [Samples.spx] Samples.topic
           eq_refl).
Defined.

Lemma payload_not_object_ends_process_witness :
  handle_message [Samples.topic; array_payload]
  = (["=== TOPIC: report.options ==="], Raise AttributeError)
  /\ loop [Message [Samples.topic; array_payload]; Message [Samples.topic]]
     = (["=== TOPIC: report.options ==="], Exited 1).
Proof.
  exact (payload_not_object_ends_process Samples.topic array_payload []
           Samples.topic array_payload (PList [PInt 1])
           [Message [Samples.topic]] eq_refl eq_refl eq_refl eq_refl).
Defined.



Lemma fault_ends_process_witness :
  loop [Message [Samples.topic; rows_number]; Message [Samples.topic]]
  = (["=== TOPIC: report.options ==="], Exited 1).
Proof.
  exact (fault_ends_process [Samples.topic; rows_number]
           ["=== TOPIC: report.options ==="] TypeError
           [Message [Samples.topic]] eq_refl).
Defined.

Lemma loop_over_more_events_witness :
  loop ([Message [Samples.topic]] ++ [Message [Samples.topic; Samples.not_json]])
  = ((["=== TOPIC: report.options ==="; ""]
        ++ fst (loop [Message [Samples.topic; Samples.not_json]]))%list,
     snd (loop [Message [Samples.topic; Samples.not_json]]))
  /\ loop ([Message [Samples.topic; array_payload]] ++ [Message [Samples.topic]])
     = (["=== TOPIC: report.options ==="], Exited 1).
Proof.
  split.
  - exact (proj1 (loop_over_more_events [Message [Samples.topic]]
                    [Message [Samples.topic; Samples.not_json]]
                    ["=== TOPIC: report.options ==="; ""]) eq_refl).
  - exact (proj2 (loop_over_more_events
                    [Message [Samples.topic; array_payload]]
                    [Message [Samples.topic]]
                    ["=== TOPIC: report.options ==="]) 1 eq_refl).
Defined.

Lemma messages_handled_one_by_one_witness :
  main (Samples.session
          [Message [Samples.topic; Samples.spx]; Message [Samples.topic]])
  = ((banner default_address
        ++ outputs [[Samples.topic; Samples.spx]; [Samples.topic]])%list,
     Receiving).
Proof.
  apply (messages_handled_one_by_one
           (Samples.session
              [Message [Samples.topic; Samples.spx]; Message [Samples.topic]])
           [[Samples.topic; Samples.spx]; [Samples.topic]]);
    [reflexivity | reflexivity |].
  repeat constructor.
Defined.

Lemma output_framed_by_delimiter_and_blank_witness :
  (exists topic lines,
     topic_of [Samples.topic; array_payload] = Ok topic
     /\ ["=== TOPIC: report.options ==="] = delimiter topic :: lines)
  /\ (exists topic middle,
        topic_of [Samples.topic; Samples.spx] = Ok topic
        /\ Samples.spx_output = (delimiter topic :: middle ++ [""])%list).
Proof.
  split.
  - apply (proj1 (output_framed_by_delimiter_and_blank
                    [Samples.topic; array_payload]
                    ["=== TOPIC: report.options ==="]) (Raise AttributeError));
      [reflexivity | discriminate].
  - apply (proj2 (output_framed_by_delimiter_and_blank
                    [Samples.topic; Samples.spx] Samples.spx_output)).
    reflexivity.
Defined.
